(** * whisper_stt.py: the master-log merge, embedded and verified

    The program transcribes a recording, asks a language model for a
    structured workout record and folds that record into a JSON log with one
    entry per day ([append_to_master_log]).  This file embeds the Python
    values the program handles (what [json.load] returns), the operations the
    source applies to them, the merge itself and the command-line driver, and
    proves the properties of the merge. *)

From Stdlib Require Import ZArith String Ascii List.
From Stdlib Require Import Floats.SpecFloat.
From stdpp Require Import base option list strings gmap.

Set Warnings "-register-all".

(** ** Exceptions and fallible results *)

(** The exception classes the program can meet.  [ExternalError] stands for
    whatever an external collaborator (Whisper, the HTTP client) raises. *)
Inductive exn : Type :=
  | KeyError
  | TypeError
  | AttributeError
  | JSONDecodeError
  | SystemExit
  | ExternalError.

Inductive result (A : Type) : Type :=
  | Ok (a : A)
  | Raise (e : exn).
Arguments Ok {A} a.
Arguments Raise {A} e.

#[global] Instance result_ret : MRet result := @Ok.
#[global] Instance result_bind : MBind result := λ A B f m,
  match m with Ok a => f a | Raise e => Raise e end.
#[global] Instance result_fmap : FMap result := λ A B f m,
  match m with Ok a => Ok (f a) | Raise e => Raise e end.

(** ** Python values as [json.load] produces them *)

Module Py.

Local Open Scope Z_scope.

(** A JSON document decoded by Python: [None], [bool], [int] (unbounded),
    [float] (an IEEE double, kept as its sign, mantissa and exponent), [str],
    [list] and [dict].  A string is held as its UTF-8 text.  A dict
    keeps its insertion order and is written back in that order, so it is an
    association list; Python keeps its keys distinct, which [dict_set]
    preserves. *)
Inductive value : Type :=
  | VNone
  | VBool (b : bool)
  | VInt (n : Z)
  | VFloat (f : spec_float)
  | VStr (s : string)
  | VList (l : list value)
  | VDict (d : list (string * value)).

Fixpoint dict_lookup (k : string) (d : list (string * value)) : option value :=
  match d with
  | [] => None
  | (k', v) :: d' => if decide (k' = k) then Some v else dict_lookup k d'
  end.

(** [d[k] = v] on a dict: an existing key keeps its position. *)
Fixpoint dict_set (k : string) (v : value) (d : list (string * value))
  : list (string * value) :=
  match d with
  | [] => [(k, v)]
  | (k', v') :: d' =>
      if decide (k' = k) then (k, v) :: d' else (k', v') :: dict_set k v d'
  end.

(** [bool(v)]: the truth value of an object. *)
Definition truthy (v : value) : bool :=
  match v with
  | VNone => false
  | VBool b => b
  | VInt n => negb (n =? 0)
  | VFloat (S754_zero _) => false
  | VFloat _ => true
  | VStr s => negb (bool_decide (s = ""))
  | VList l => match l with [] => false | _ :: _ => true end
  | VDict d => match d with [] => false | _ :: _ => true end
  end.

(** *** Equality ([==] and [!=])

    Numbers compare by mathematical value across [bool], [int] and [float];
    [nan] equals nothing, itself included.  A finite number is read as
    [m * 2 ^ e]. *)
Inductive num : Type :=
  | NExact (m e : Z)
  | NInf (negative : bool)
  | NNaN.

Definition as_num (v : value) : option num :=
  match v with
  | VBool b => Some (NExact (if b then 1 else 0) 0)
  | VInt n => Some (NExact n 0)
  | VFloat (S754_zero _) => Some (NExact 0 0)
  | VFloat (S754_infinity s) => Some (NInf s)
  | VFloat S754_nan => Some NNaN
  | VFloat (S754_finite s m e) =>
      Some (NExact (if s then Z.neg m else Z.pos m) e)
  | _ => None
  end.

Definition num_eq (a b : num) : bool :=
  match a, b with
  | NExact m1 e1, NExact m2 e2 =>
      let e := Z.min e1 e2 in
      m1 * 2 ^ (e1 - e) =? m2 * 2 ^ (e2 - e)
  | NInf s1, NInf s2 => Bool.eqb s1 s2
  | _, _ => false
  end.

(** [json] decodes every [NaN] literal to one shared float object, and the
    element comparison of containers tries identity before [==], so two
    [nan] entries of lists or dicts count as equal although [nan == nan] is
    false. *)
Definition same_nan (a b : value) : bool :=
  match a, b with
  | VFloat S754_nan, VFloat S754_nan => true
  | _, _ => false
  end.

(** [a == b].  Lists compare element by element; dicts compare as maps
    (same number of keys, and every key of [a] bound in [b] to an equal
    value), whatever the insertion order. *)
Fixpoint equal (a b : value) {struct a} : bool :=
  match a, b with
  | VNone, VNone => true
  | VStr s, VStr t => bool_decide (s = t)
  | VList l, VList m =>
      (fix all2 (l m : list value) : bool :=
         match l, m with
         | [], [] => true
         | x :: l', y :: m' => (same_nan x y || equal x y) && all2 l' m'
         | _, _ => false
         end) l m
  | VDict d, VDict d2 =>
      (length d =? length d2)%nat &&
      (fix keys (d : list (string * value)) : bool :=
         match d with
         | [] => true
         | (k, x) :: d' =>
             match dict_lookup k d2 with
             | Some y => (same_nan x y || equal x y) && keys d'
             | None => false
             end
         end) d
  | VNone, _ | VStr _, _ | VList _, _ | VDict _, _ => false
  | _, _ =>
      match as_num a, as_num b with
      | Some x, Some y => num_eq x y
      | _, _ => false
      end
  end.

(** [a != b] *)
Definition not_equal (a b : value) : bool := negb (equal a b).

(** *** Item access, methods and iteration *)

(** [o[k]] with a string key: only a dict can be indexed by a string. *)
Definition getitem (o : value) (k : string) : result value :=
  match o with
  | VDict d =>
      match dict_lookup k d with
      | Some v => Ok v
      | None => Raise KeyError
      end
  | _ => Raise TypeError
  end.

(** [o[k] = v] with a string key. *)
Definition setitem (o : value) (k : string) (v : value) : result value :=
  match o with
  | VDict d => Ok (VDict (dict_set k v d))
  | _ => Raise TypeError
  end.

(** [o.get(k, default)]: only dicts have the method. *)
Definition get (o : value) (k : string) (default : value) : result value :=
  match o with
  | VDict d => Ok (from_option id default (dict_lookup k d))
  | _ => Raise AttributeError
  end.

(** [o.startswith(p)] for a string [p]: only strings have the method. *)
Definition startswith (o : value) (p : string) : result bool :=
  match o with
  | VStr s => Ok (String.prefix p s)
  | _ => Raise AttributeError
  end.

(** A text is held as its UTF-8 bytes, and Python iterates it by character.
    A byte [10xxxxxx] continues the character begun before it. *)
Definition is_continuation (c : ascii) : bool :=
  match c with
  | Ascii _ _ _ _ _ _ false true => true
  | _ => false
  end.

(** The continuation bytes [s] starts with, and the characters after them:
    each is a leading byte with the continuation bytes that follow it. *)
Fixpoint utf8_chars (s : string) : string * list string :=
  match s with
  | EmptyString => (EmptyString, [])
  | String c s' =>
      let '(tail, rest) := utf8_chars s' in
      if is_continuation c then (String c tail, rest)
      else (EmptyString, String c tail :: rest)
  end.

(** The characters of a string, each a string of its own.  (Continuation
    bytes without a leading byte, which no text starts with, are kept as one
    element.) *)
Definition chars (s : string) : list value :=
  let '(orphan, rest) := utf8_chars s in
  VStr <$> match orphan with
           | EmptyString => rest
           | String _ _ => orphan :: rest
           end.

(** What [for x in o] and [list.extend(o)] enumerate: the elements of a
    list, the characters of a string, the keys of a dict. *)
Definition iter (o : value) : result (list value) :=
  match o with
  | VList l => Ok l
  | VStr s => Ok (chars s)
  | VDict d => Ok (VStr <$> d.*1)
  | _ => Raise TypeError
  end.

(** [target.extend(arg)]: the method is looked up on [target] first (only a
    list has it), then the argument is evaluated, then it is iterated. *)
Definition extend (target : value) (arg : result value) : result value :=
  match target with
  | VList l =>
      a ← arg;
      items ← iter a;
      Ok (VList (l ++ items))
  | _ => Raise AttributeError
  end.

(** [target.append(x)] *)
Definition append (target : value) (x : value) : result value :=
  match target with
  | VList l => Ok (VList (l ++ [x]))
  | _ => Raise AttributeError
  end.

End Py.

Import Py.

(** ** The calendar *)

(** [datetime.now().date()]: a year between 1 and 9999, a month, a day. *)
Record date : Type := { year : nat; month : nat; day : nat }.

Definition digit (n : nat) : ascii := ascii_of_nat (48 + n mod 10).

(** [date.isoformat()]: [YYYY-MM-DD], zero-padded. *)
Definition isoformat (d : date) : string :=
  String (digit (year d / 1000)) (String (digit (year d / 100))
    (String (digit (year d / 10)) (String (digit (year d))
      (String "-" (String (digit (month d / 10)) (String (digit (month d))
        (String "-" (String (digit (day d / 10))
          (String (digit (day d)) EmptyString))))))))).

(** ** The log store *)

(** A file is known by what [json.load] makes of it: [Json v] is a file
    whose text decodes to [v] (what [json.dump] writes for [v] is such a
    text), [Other s] holds a text [s] that is no JSON document. *)
Inductive file : Type :=
  | Json (v : value)
  | Other (s : string).

(** The files, by path as the program spells it: two spellings of one file
    are not told apart. *)
Abbreviation filesystem := (gmap string file).

(** Code that reads and writes files and may raise: the files are kept when
    an exception ends the computation. *)
Definition io (A : Type) : Type := filesystem → result A * filesystem.

#[global] Instance io_ret : MRet io := λ A a fs, (Ok a, fs).
#[global] Instance io_bind : MBind io := λ A B f m fs,
  match m fs with
  | (Ok a, fs') => f a fs'
  | (Raise e, fs') => (Raise e, fs')
  end.

Definition lift {A : Type} (r : result A) : io A := λ fs, (r, fs).

(** Lines 127-131: [json.load] of the log, or the empty log when the file
    does not exist; any other failure propagates. *)
Definition load (master_log_path : string) : io value := λ fs,
  match fs !! master_log_path with
  | None => (Ok (VDict [("workouts", VList [])]), fs)
  | Some (Json v) => (Ok v, fs)
  | Some (Other _) => (Raise JSONDecodeError, fs)
  end.

(** Lines 166-167: the whole log replaces the file.  This is the write that
    completes; [save_in] below has the writes that fail. *)
Definition save (master_log_path : string) (master_log : value) : io unit :=
  λ fs, (Ok (), <[master_log_path := Json master_log]> fs).

(** ** The merge *)

(** Lines 135-140: the first workout, in list order, whose [date] (the empty
    string when the key is missing) starts with [today].  The loop variable
    is a reference into the list; the position stands for it. *)
Fixpoint find_existing (today : string) (workouts : list value)
  : result (option (nat * value)) :=
  match workouts with
  | [] => Ok None
  | workout :: rest =>
      workout_date ← get workout "date" (VStr "");
      hit ← startswith workout_date today;
      if hit : bool then Ok (Some (0, workout))
      else
        found ← find_existing today rest;
        Ok (fmap (M := option) (prod_map S id) found)
  end.

(** The element [i] of [master_log["workouts"]] was mutated through the
    reference [existing_workout]: what [master_log] now shows.  Only a list
    hands out references to its elements. *)
Definition update_workout (master_log : value) (i : nat) (w : value) : value :=
  match master_log with
  | VDict d =>
      match dict_lookup "workouts" d with
      | Some (VList l) => VDict (dict_set "workouts" (VList (<[i := w]> l)) d)
      | _ => master_log
      end
  | _ => master_log
  end.

Section Program.

(** [str(v)] as an f-string field prints it, for a value [v] that is not a
    string; Python's own formatting of numbers and containers is a parameter
    of the development. *)
Context (py_str : value → string).

(** A replacement field [{v}] of an f-string. *)
Definition format_field (v : value) : string :=
  match v with
  | VStr s => s
  | _ => py_str v
  end.

(** Lines 143-156: the incoming [workout_data] folded into the workout found
    for the day. *)
Definition merge_existing (existing_workout workout_data : value)
  : result value :=
  (* existing_workout["exercises"].extend(workout_data["exercises"]) *)
  exercises ← getitem existing_workout "exercises";
  exercises ← extend exercises (getitem workout_data "exercises");
  existing_workout ← setitem existing_workout "exercises" exercises;
  (* if workout_data.get("workout_type") and ... != ...: *)
  incoming_type ← get workout_data "workout_type" VNone;
  existing_workout ←
    (if truthy incoming_type then
       incoming_type ← getitem workout_data "workout_type";
       existing_type ← get existing_workout "workout_type" VNone;
       if not_equal incoming_type existing_type
       then setitem existing_workout "workout_type" (VStr "mixed")
       else Ok existing_workout
     else Ok existing_workout);
  (* if workout_data.get("notes"): *)
  incoming_notes ← get workout_data "notes" VNone;
  if truthy incoming_notes then
    existing_notes ← get existing_workout "notes" (VStr "");
    if truthy existing_notes then
      incoming_notes ← getitem workout_data "notes";
      setitem existing_workout "notes"
        (VStr (format_field existing_notes +:+ "; " +:+ format_field incoming_notes))
    else
      incoming_notes ← getitem workout_data "notes";
      setitem existing_workout "notes" incoming_notes
  else Ok existing_workout.

(** Lines 160-162: the incoming record becomes a new workout at the end of
    the list. *)
Definition create_workout (today : string) (workout_data master_log : value)
  : result value :=
  workout_data ← setitem workout_data "date" (VStr today);
  workouts ← getitem master_log "workouts";
  workouts ← append workouts workout_data;
  setitem master_log "workouts" workouts.

(** Lines 133-163: find the workout of the day and merge into it, or create
    one.  [if existing_workout:] tests the truth value of what the loop left:
    [None] is false, and so is an empty dict. *)
Definition merge (today : string) (workout_data master_log : value)
  : result value :=
  workouts ← getitem master_log "workouts";
  workouts ← iter workouts;
  existing_workout ← find_existing today workouts;
  match existing_workout with
  | Some (i, existing_workout) =>
      if truthy existing_workout then
        existing_workout ← merge_existing existing_workout workout_data;
        Ok (update_workout master_log i existing_workout)
      else create_workout today workout_data master_log
  | None => create_workout today workout_data master_log
  end.

(** Lines 117-121: the date of the run. *)
Definition resolve_today (now : date) (date_override : option string) : string :=
  match date_override with
  | Some d => if bool_decide (d = "") then isoformat now else d
  | None => isoformat now
  end.

(** [append_to_master_log(workout_data, master_log_path, date_override)],
    run when the clock shows [now], the console takes every line (lines
    158, 163, 169 and 170) and the file can be written;
    [append_to_master_log_in] below has the run when a print or the write
    fails. *)
Definition append_to_master_log (now : date) (workout_data : value)
    (master_log_path : string) (date_override : option string) : io unit :=
  let today := resolve_today now date_override in
  workout_data ← lift (setitem workout_data "date" (VStr today));
  master_log ← load master_log_path;
  master_log ← lift (merge today workout_data master_log);
  save master_log_path master_log.

(** ** The command-line driver *)

(** [s.rsplit('.', 1)[0]]: what precedes the last dot, the whole string when
    there is none. *)
Fixpoint before_last_dot (s : string) : option string :=
  match s with
  | EmptyString => None
  | String c s' =>
      match before_last_dot s' with
      | Some r => Some (String c r)
      | None => if bool_decide (c = "."%char) then Some EmptyString else None
      end
  end.

Definition rsplit_head (s : string) : string :=
  default s (before_last_dot s).

(** The collaborators of a run: the transcript source and the extraction
    service (each returns or raises, and is taken to leave the files of the
    run alone), the clock, and what [json.load] would make of a text written
    by the run. *)
Record world : Type := {
  transcribe_audio : string → string → result string;
  extract_workout_data : string → string → result value;
  clock : date;
  json_decode : string → option value
}.

(** [f.write(text)] on a file opened for writing. *)
Definition write_text (w : world) (path text : string) : io unit :=
  λ fs,
    (Ok (), <[path := match json_decode w text with
                      | Some v => Json v
                      | None => Other text
                      end]> fs).

(** Lines 191-218: the body of the [try]. *)
Definition pipeline (w : world)
    (audio_file whisper_model ollama_model master_log_path : string)
    (date_override : option string) : io unit :=
  transcription ← lift (transcribe_audio w audio_file whisper_model);
  workout_data ← lift (extract_workout_data w transcription ollama_model);
  let base_name := rsplit_head audio_file in
  _ ← write_text w (base_name +:+ "_transcription.txt") transcription;
  _ ← save (base_name +:+ "_workout.json") workout_data;
  append_to_master_log (clock w) workout_data master_log_path date_override.

(** Lines 172-224: the script, from [sys.argv] to the exit status.  Every
    exception ends the process with status 1. *)
Definition main (w : world) (argv : list string) (fs : filesystem)
  : Z * filesystem :=
  match argv with
  | _ :: audio_file :: _ =>
      let whisper_model := default "base" (argv !! 2) in
      let ollama_model := default "llama3.2" (argv !! 3) in
      let master_log_path := default "workout_master_log.json" (argv !! 4) in
      let date_override := argv !! 5 in
      match pipeline w audio_file whisper_model ollama_model master_log_path
              date_override fs with
      | (Ok _, fs') => (0%Z, fs')
      | (Raise _, fs') => (1%Z, fs')
      end
  | _ => (1%Z, fs)
  end.

End Program.

(** ** The validation contract of the specification

    Section 4.2 of the specification asks that a record be checked before it
    is merged; the source has no such check.  The contract is written down
    here from the specification's words, to state what the merge does with
    records that meet it and with records that do not. *)

Definition spec_valid_set (s : value) : bool :=
  match s with
  | VDict d => bool_decide (is_Some (dict_lookup "set_number" d))
  | _ => false
  end.

Definition spec_valid_exercise (e : value) : bool :=
  match e with
  | VDict d =>
      match dict_lookup "name" d with
      | Some (VStr n) => negb (bool_decide (n = ""))
      | _ => false
      end
      && match dict_lookup "sets" d with
         | None | Some VNone => true
         | Some (VList l) => forallb spec_valid_set l
         | Some _ => false
         end
  | _ => false
  end.

Definition spec_valid_record (r : value) : bool :=
  match r with
  | VDict d =>
      match dict_lookup "exercises" d with
      | Some (VList l) => forallb spec_valid_exercise l
      | _ => false
      end
  | _ => false
  end.

(** ** The glue around the collaborators *)

(** Line 25: [" ".join([segment.text for segment in segments])], on the
    texts of the segments Whisper returned. *)
Fixpoint join_segments (texts : list string) : string :=
  match texts with
  | [] => ""
  | [t] => t
  | t :: rest => t +:+ " " +:+ join_segments rest
  end.

(** The exercises of a record, the empty list when it has no list of them. *)
Definition exercises_of (w : value) : list value :=
  match w with
  | VDict d =>
      match dict_lookup "exercises" d with
      | Some (VList l) => l
      | _ => []
      end
  | _ => []
  end.

(** ** A run in its surroundings

    The prints of [append_to_master_log] and its write can fail.  Each print
    returns or raises; the write completes, or fails before the file is
    opened (the file is then as it was), or is torn: the file was opened,
    hence emptied, and something went wrong before it was closed. *)

Inductive write_outcome : Type :=
  | Written
  | NotOpened (e : exn)
  | Torn (e : exn) (remains : file).

(** What happens to the effects of one run: the print of the branch taken
    (line 158 or 163), the write (lines 166-167) and the two prints after it
    (lines 169 and 170). *)
Record surroundings : Type := {
  print_branch : result unit;
  write_log : write_outcome;
  print_updated : result unit;
  print_total : result unit
}.

(** Lines 166-167 in the surroundings [s]. *)
Definition save_in (s : surroundings) (master_log_path : string)
    (master_log : value) : io unit :=
  λ fs,
    match write_log s with
    | Written => (Ok (), <[master_log_path := Json master_log]> fs)
    | NotOpened e => (Raise e, fs)
    | Torn e remains => (Raise e, <[master_log_path := remains]> fs)
    end.


(** [append_to_master_log] line by line, in the surroundings [s]. *)
Definition append_to_master_log_in (py_str : value → string)
    (s : surroundings) (now : date) (workout_data : value)
    (master_log_path : string) (date_override : option string) : io unit :=
  let today := resolve_today now date_override in
  workout_data ← lift (setitem workout_data "date" (VStr today));
  master_log ← load master_log_path;
  master_log ← lift (merge py_str today workout_data master_log);
  _ ← lift (print_branch s);
  _ ← save_in s master_log_path master_log;
  _ ← lift (print_updated s);
  lift (print_total s).

(** The surroundings in which nothing fails. *)
Definition calm : surroundings :=
  {| print_branch := Ok (); write_log := Written;
     print_updated := Ok (); print_total := Ok () |}.

(** ** Vocabulary of the statements *)

(** The stored date of a record, as the scan reads it. *)
Definition date_of (w : value) : string :=
  match w with
  | VDict d =>
      match dict_lookup "date" d with
      | Some (VStr s) => s
      | _ => ""
      end
  | _ => ""
  end.

(** A record is a record of the day [today] when its stored date starts
    with [today]: the comparison of line 138. *)
Definition on_date (today : string) (w : value) : Prop :=
  String.prefix today (date_of w) = true.

#[global] Instance on_date_dec today w : Decision (on_date today w).
Proof. unfold on_date. apply _. Defined.

(** A record with a stored date that is a string. *)
Definition dated (w : value) : Prop :=
  ∃ d s, w = VDict d ∧ dict_lookup "date" d = Some (VStr s).

(** A record the scan can read: an object whose date, when it has one, is a
    string. *)
Definition scannable (w : value) : Prop :=
  ∃ d, w = VDict d ∧
    (dict_lookup "date" d = None ∨ ∃ s, dict_lookup "date" d = Some (VStr s)).

(** A record with a list of exercises. *)
Definition has_exercise_list (w : value) : Prop :=
  ∃ d l, w = VDict d ∧ dict_lookup "exercises" d = Some (VList l).

(** The shape of a stored WorkoutRecord that the merge relies on. *)
Definition wf_record (w : value) : Prop := dated w ∧ has_exercise_list w.

(** A log of the expected shape: an object whose [workouts] is a list. *)
Definition log_shape (log : value) : Prop :=
  ∃ d ws, log = VDict d ∧ dict_lookup "workouts" d = Some (VList ws).

Definition exercise_count (w : value) : nat :=
  match getitem w "exercises" with
  | Ok (VList l) => length l
  | _ => 0
  end.

(** The field [k] of a record, [None] when it has no such field. *)
Definition field (k : string) (w : value) : option value :=
  match w with
  | VDict d => dict_lookup k d
  | _ => None
  end.

(** [k] successive runs of the program on one log file, all with the date
    override [d]; each run has its own clock reading and extracted record. *)
Fixpoint run_all (py_str : value → string) (path d : string)
    (runs : list (date * value)) : io unit :=
  match runs with
  | [] => mret ()
  | (now, workout_data) :: rest =>
      _ ← append_to_master_log py_str now workout_data path (Some d);
      run_all py_str path d rest
  end.

(** What lines 147-148 and 151-156 do to the fields of the matched record
    [existing], given the fields of the [incoming] one. *)
Definition reconcile_type (incoming existing : list (string * value))
  : list (string * value) :=
  let t := default VNone (dict_lookup "workout_type" incoming) in
  if truthy t
     && not_equal t (default VNone (dict_lookup "workout_type" existing))
  then dict_set "workout_type" (VStr "mixed") existing
  else existing.

Definition reconcile_notes (py_str : value → string)
    (incoming existing : list (string * value)) : list (string * value) :=
  let n := default VNone (dict_lookup "notes" incoming) in
  let e := default (VStr "") (dict_lookup "notes" existing) in
  if truthy n then
    if truthy e then
      dict_set "notes"
        (VStr (format_field py_str e +:+ "; " +:+ format_field py_str n))
        existing
    else dict_set "notes" n existing
  else existing.

(** The store holds a well-formed log in which exactly one record is of the
    day [d]: the record [r], at position [i]. *)
Definition day_state (path d : string) (fs : filesystem) (i : nat) (r : value)
  : Prop :=
  ∃ dl ws,
    load path fs = (Ok (VDict dl), fs) ∧
    dict_lookup "workouts" dl = Some (VList ws) ∧
    Forall wf_record ws ∧
    list_find (on_date d) ws = Some (i, r) ∧
    length (filter (on_date d) ws) = 1.

(** ** Sample data

    Concrete records, logs and stores on which the model is evaluated. *)

(** An instance of the formatting parameter: Python's text for [None] and
    the booleans.  The samples format no other value that is not a string. *)
Definition str_of_atom (v : value) : string :=
  match v with
  | VNone => "None"
  | VBool true => "True"
  | VBool false => "False"
  | _ => ""
  end.

Definition squat : value :=
  VDict [("name", VStr "squat");
         ("sets", VList [VDict [("set_number", VInt 1); ("reps", VInt 5)]])].

Definition jog : value := VDict [("name", VStr "jog")].

Definition stored_day : value :=
  VDict [("date", VStr "2025-11-01T00:00:00");
         ("exercises", VList [squat]);
         ("workout_type", VStr "strength");
         ("duration", VStr "40 min");
         ("notes", VStr "tired")].

Definition other_day : value :=
  VDict [("date", VStr "2025-11-02"); ("exercises", VList [])].

Definition sample_log : value :=
  VDict [("workouts", VList [other_day; stored_day])].

Definition incoming_cardio : value :=
  VDict [("exercises", VList [jog]);
         ("workout_type", VStr "cardio");
         ("notes", VStr "felt great");
         ("date", VStr "yesterday")].

Definition log_path : string := "workout_master_log.json".

Definition sample_fs : filesystem := {[ log_path := Json sample_log ]}.

Definition noon : date := {| year := 2025; month := 11; day := 3 |}.


(** A record without exercises. *)
Definition no_exercises : value := VDict [("workout_type", VStr "cardio")].

(** Collaborators that hear "three sets of squats" (which is no JSON
    document) and extract the given record. *)
Definition sample_world (extracted : value) : world :=
  {| transcribe_audio := λ _ _, Ok "three sets of squats";
     extract_workout_data := λ _ _, Ok extracted;
     clock := noon;
     json_decode := λ _, None |}.

(** ** Dictionaries *)

Lemma dict_lookup_set_eq k v d : dict_lookup k (dict_set k v d) = Some v.
Proof.
  induction d as [|[k' v'] d IH]; simpl.
  - by rewrite decide_True.
  - destruct (decide (k' = k)) as [->|Hne]; simpl.
    + by rewrite decide_True.
    + by rewrite decide_False.
Qed.

Lemma dict_lookup_set_ne k k' v d :
  k ≠ k' → dict_lookup k' (dict_set k v d) = dict_lookup k' d.
Proof.
  intros Hne. induction d as [|[k0 v0] d IH]; simpl.
  - by rewrite decide_False.
  - destruct (decide (k0 = k)) as [->|Hk]; simpl.
    + by rewrite !decide_False.
    + destruct (decide (k0 = k')); [done | apply IH].
Qed.

Lemma dict_set_set k v d : dict_set k v (dict_set k v d) = dict_set k v d.
Proof.
  induction d as [|[k' v'] d IH]; simpl.
  - by rewrite decide_True.
  - destruct (decide (k' = k)) as [->|Hne]; simpl.
    + by rewrite decide_True.
    + rewrite decide_False by done. by rewrite IH.
Qed.

(** ** Results *)

Lemma bind_Ok {A B} (m : result A) (f : A → result B) b :
  (m ≫= f) = Ok b ↔ ∃ a, m = Ok a ∧ f a = Ok b.
Proof.
  destruct m as [a|e]; simpl; split.
  - intros H. by exists a.
  - by intros (a' & [= <-] & H).
  - done.
  - by intros (a' & [=] & _).
Qed.

(** ** The matched branch, field by field *)

Local Ltac notes_cases dwd :=
  destruct (dict_lookup "notes" dwd) as [n|]; simpl; [|done];
  destruct (truthy n); simpl; [|done];
  by destruct (truthy _).

(** On two objects, lines 143-156 fail only on the exercises; otherwise the
    matched record gets the concatenated exercises and the reconciled type
    and notes. *)
Lemma merge_existing_dict py_str dw dwd :
  merge_existing py_str (VDict dw) (VDict dwd) =
    match dict_lookup "exercises" dw with
    | Some (VList old) =>
        match dict_lookup "exercises" dwd with
        | Some inc =>
            new ← iter inc;
            Ok (VDict (reconcile_notes py_str dwd
                         (reconcile_type dwd
                            (dict_set "exercises" (VList (old ++ new)) dw))))
        | None => Raise KeyError
        end
    | Some _ => Raise AttributeError
    | None => Raise KeyError
    end.
Proof.
  unfold merge_existing. simpl.
  destruct (dict_lookup "exercises" dw) as [[]|]; simpl; try done.
  destruct (dict_lookup "exercises" dwd) as [inc|]; simpl; try done.
  destruct (iter inc) as [new|]; simpl; try done.
  unfold reconcile_type, reconcile_notes.
  destruct (dict_lookup "workout_type" dwd) as [t|]; simpl;
    [destruct (truthy t); simpl; [destruct (not_equal _ _); simpl|]|];
    notes_cases dwd.
Qed.

Lemma merge_existing_objects py_str w wd w' :
  merge_existing py_str w wd = Ok w' →
  ∃ dw dwd, w = VDict dw ∧ wd = VDict dwd.
Proof.
  unfold merge_existing. intros H.
  destruct w as [| | | | | |dw]; try done.
  exists dw. destruct wd as [| | | | | |dwd]; [..|by eauto]; exfalso;
    simpl in H; destruct (dict_lookup "exercises" dw) as [[]|]; done.
Qed.

(** Success of the matched branch, in full. *)
Lemma merge_existing_Ok py_str w wd w' :
  merge_existing py_str w wd = Ok w' ↔
  ∃ dw dwd old inc new,
    w = VDict dw ∧ wd = VDict dwd ∧
    dict_lookup "exercises" dw = Some (VList old) ∧
    dict_lookup "exercises" dwd = Some inc ∧ iter inc = Ok new ∧
    w' = VDict (reconcile_notes py_str dwd
                  (reconcile_type dwd
                     (dict_set "exercises" (VList (old ++ new)) dw))).
Proof.
  split.
  - intros H. destruct (merge_existing_objects _ _ _ _ H) as (dw & dwd & -> & ->).
    rewrite merge_existing_dict in H.
    destruct (dict_lookup "exercises" dw) as [[| | | | |old|]|] eqn:Hold; try done.
    destruct (dict_lookup "exercises" dwd) as [inc|] eqn:Hinc; try done.
    destruct (iter inc) as [new|] eqn:Hnew; try done.
    simpl in H. injection H as <-. by exists dw, dwd, old, inc, new.
  - intros (dw & dwd & old & inc & new & -> & -> & Hold & Hinc & Hnew & ->).
    by rewrite merge_existing_dict, Hold, Hinc, Hnew.
Qed.

Lemma reconcile_type_lookup_ne k incoming d :
  k ≠ "workout_type" →
  dict_lookup k (reconcile_type incoming d) = dict_lookup k d.
Proof.
  intros Hk. unfold reconcile_type.
  destruct (_ && _); [|done]. by apply dict_lookup_set_ne.
Qed.

Lemma reconcile_notes_lookup_ne py_str k incoming d :
  k ≠ "notes" →
  dict_lookup k (reconcile_notes py_str incoming d) = dict_lookup k d.
Proof.
  intros Hk. unfold reconcile_notes.
  destruct (truthy _); [|done].
  destruct (truthy _); by apply dict_lookup_set_ne.
Qed.

(** The fields of the merged record that the three updates leave alone. *)
Lemma merged_lookup_other py_str k dwd dw exercises :
  k ≠ "exercises" → k ≠ "workout_type" → k ≠ "notes" →
  dict_lookup k (reconcile_notes py_str dwd
                   (reconcile_type dwd (dict_set "exercises" exercises dw)))
  = dict_lookup k dw.
Proof.
  intros H1 H2 H3.
  rewrite reconcile_notes_lookup_ne, reconcile_type_lookup_ne by done.
  by apply dict_lookup_set_ne.
Qed.

Lemma merged_lookup_exercises py_str dwd dw exercises :
  dict_lookup "exercises"
    (reconcile_notes py_str dwd
       (reconcile_type dwd (dict_set "exercises" exercises dw)))
  = Some exercises.
Proof.
  rewrite reconcile_notes_lookup_ne, reconcile_type_lookup_ne by done.
  apply dict_lookup_set_eq.
Qed.

(** ** The scan *)

Lemma dated_truthy w : dated w → truthy w = true.
Proof. intros (d & s & -> & H). by destruct d. Qed.

Lemma dated_date_of d s :
  dict_lookup "date" d = Some (VStr s) → date_of (VDict d) = s.
Proof. intros H. unfold date_of. by rewrite H. Qed.

Lemma dated_scannable w : dated w → scannable w.
Proof. intros (d & s & -> & H). exists d. eauto. Qed.

(** On records it can read the loop is a search for the first record of the
    day. *)
Lemma find_existing_scannable today ws :
  Forall scannable ws →
  find_existing today ws = Ok (list_find (on_date today) ws).
Proof.
  induction 1 as [|w ws (d & -> & Hd) _ IH]; [done|].
  cbn [find_existing list_find]. unfold get. rewrite IH.
  destruct (decide (on_date today (VDict d))) as [Hon|Hon];
    unfold on_date, date_of in Hon;
    destruct Hd as [Hd | [s Hd]]; rewrite Hd in Hon |- *; simpl.
  - by destruct today.
  - by rewrite Hon.
  - by destruct today.
  - by destruct (String.prefix today s).
Qed.

Lemma find_existing_dated today ws :
  Forall dated ws →
  find_existing today ws = Ok (list_find (on_date today) ws).
Proof.
  intros H. apply find_existing_scannable.
  eapply Forall_impl; [done | apply dated_scannable].
Qed.

(** A record of a day that has a name is not the empty object. *)
Lemma on_date_truthy today w :
  today ≠ "" → scannable w → on_date today w → truthy w = true.
Proof.
  intros Htoday (d & -> & Hd) Hon. destruct d as [|kv d]; [|done].
  unfold on_date in Hon. simpl in Hon. by destruct today.
Qed.

(** ** Lists of records *)

Section Records.

Context {A : Type} (P : A → Prop) `{!∀ x, Decision (P x)}.

Lemma list_find_replace (ws : list A) i w w' :
  list_find P ws = Some (i, w) → P w' →
  list_find P (<[i := w']> ws) = Some (i, w').
Proof.
  rewrite !list_find_Some. intros (Hi & _ & Hbefore) HP.
  split_and!; [|done|].
  - apply list_lookup_insert_eq. by eapply lookup_lt_Some.
  - intros j y Hj Hlt. rewrite list_lookup_insert_ne in Hj by lia. eauto.
Qed.

Lemma filter_replace_length (ws : list A) i w w' :
  ws !! i = Some w → P w → P w' →
  length (filter P (<[i := w']> ws)) = length (filter P ws).
Proof.
  revert i. induction ws as [|x ws IH]; intros [|i] Hi Hw Hw'; simplify_eq/=.
  - by rewrite !filter_cons, !decide_True.
  - rewrite !filter_cons. case_decide; simpl; eauto.
Qed.

Lemma list_find_None_filter (ws : list A) :
  list_find P ws = None → filter P ws = [].
Proof.
  rewrite list_find_None. induction 1 as [|x ws Hx _ IH]; [done|].
  by rewrite filter_cons_False.
Qed.

Lemma list_find_Some_filter (ws : list A) i w :
  list_find P ws = Some (i, w) → 1 ≤ length (filter P ws).
Proof.
  rewrite list_find_Some. intros (Hi & HP & _).
  apply list_elem_of_lookup_2, list_elem_of_split in Hi as (l1 & l2 & ->).
  rewrite filter_app, filter_cons_True, length_app by done. simpl. lia.
Qed.

Lemma filter_only_one (ws : list A) r :
  length (filter P ws) = 1 → r ∈ ws → P r →
  ∀ w, w ∈ ws → P w → w = r.
Proof.
  intros Hone Hr HPr w Hw HPw.
  destruct (filter P ws) as [|x [|??]] eqn:Hf; try done.
  assert (r ∈ filter P ws) as Hr' by by apply list_elem_of_filter.
  assert (w ∈ filter P ws) as Hw' by by apply list_elem_of_filter.
  rewrite Hf in Hr', Hw'.
  apply list_elem_of_singleton in Hr', Hw'. congruence.
Qed.

Lemma filter_agree_length (Q : A → Prop) `{!∀ x, Decision (Q x)} (ws : list A) :
  (∀ w, w ∈ ws → P w ↔ Q w) →
  length (filter P ws) = length (filter Q ws).
Proof.
  induction ws as [|x ws IH]; intros Hiff; [done|].
  rewrite !filter_cons.
  assert (P x ↔ Q x) as Hx by (apply Hiff; left).
  assert (length (filter P ws) = length (filter Q ws)) as Hrest
    by (apply IH; intros w Hw; apply Hiff; by right).
  repeat case_decide; simpl; tauto || lia.
Qed.

Lemma list_find_snoc (ws : list A) x :
  list_find P ws = None → P x →
  list_find P (ws ++ [x]) = Some (length ws, x).
Proof.
  intros Hnone HP. apply list_find_app_Some. right.
  split_and!; [done..|]. rewrite Nat.sub_diag. simpl. by rewrite decide_True.
Qed.

End Records.

(** ** The merge as a function of what the scan finds *)

Lemma create_workout_dict today dwd dl ws :
  dict_lookup "workouts" dl = Some (VList ws) →
  create_workout today (VDict dwd) (VDict dl) =
    Ok (VDict (dict_set "workouts"
                 (VList (ws ++ [VDict (dict_set "date" (VStr today) dwd)])) dl)).
Proof. intros H. unfold create_workout. simpl. by rewrite H. Qed.

Lemma merge_unfold py_str today wd dl ws found :
  dict_lookup "workouts" dl = Some (VList ws) →
  find_existing today ws = Ok found →
  merge py_str today wd (VDict dl) =
    match found with
    | Some (i, w) =>
        if truthy w then
          w' ← merge_existing py_str w wd;
          Ok (VDict (dict_set "workouts" (VList (<[i := w']> ws)) dl))
        else create_workout today wd (VDict dl)
    | None => create_workout today wd (VDict dl)
    end.
Proof.
  intros Hws Hfind. unfold merge. simpl. rewrite Hws. simpl.
  rewrite Hfind. simpl. destruct found as [[i w]|]; [|done].
  destruct (truthy w); [|done].
  by destruct (merge_existing py_str w wd).
Qed.

(** ** One run on the store *)

Lemma load_keeps_files path fs r fs' : load path fs = (r, fs') → fs' = fs.
Proof. unfold load. intros H. repeat case_match; by simplify_eq. Qed.

Lemma append_to_master_log_Ok py_str now wd path dov fs fs' :
  append_to_master_log py_str now wd path dov fs = (Ok (), fs') ↔
  ∃ wd' log log',
    setitem wd "date" (VStr (resolve_today now dov)) = Ok wd' ∧
    load path fs = (Ok log, fs) ∧
    merge py_str (resolve_today now dov) wd' log = Ok log' ∧
    fs' = <[path := Json log']> fs.
Proof.
  unfold append_to_master_log, mbind, io_bind, lift, save. split.
  - destruct (setitem wd _ _) as [wd'|]; [|done].
    destruct (load path fs) as [[log|] fs1] eqn:Hload; [|done].
    pose proof (load_keeps_files _ _ _ _ Hload) as ->.
    destruct (merge _ _ _ _) as [log'|] eqn:Hmerge; [|done].
    intros [= <-]. by exists wd', log, log'.
  - intros (wd' & log & log' & -> & -> & -> & ->). done.
Qed.

(** A run that raises has written nothing. *)
Lemma append_to_master_log_Raise py_str now wd path dov fs e fs' :
  append_to_master_log py_str now wd path dov fs = (Raise e, fs') → fs' = fs.
Proof.
  unfold append_to_master_log, mbind, io_bind, lift, save.
  destruct (setitem wd _ _) as [wd'|]; [|by intros [= _ <-]].
  destruct (load path fs) as [[log|] fs1] eqn:Hload;
    pose proof (load_keeps_files _ _ _ _ Hload) as ->; [|by intros [= _ <-]].
  destruct (merge _ _ _ _) as [log'|]; [done | by intros [= _ <-]].
Qed.

Lemma load_after_save path log (fs : filesystem) :
  load path (<[path := Json log]> fs) = (Ok log, <[path := Json log]> fs).
Proof. unfold load. by rewrite lookup_insert_eq. Qed.

Lemma resolve_today_override now d :
  d ≠ "" → resolve_today now (Some d) = d.
Proof. intros H. unfold resolve_today. by rewrite bool_decide_eq_false_2. Qed.

Lemma isoformat_nonempty now : isoformat now ≠ "".
Proof. done. Qed.

Lemma resolve_today_nonempty now dov : resolve_today now dov ≠ "".
Proof.
  unfold resolve_today. destruct dov as [d|]; [|done].
  case_bool_decide; done.
Qed.

(** ** One merge into a well-formed log *)

Lemma prefix_refl s : String.prefix s s = true.
Proof. induction s as [|c s IH]; simpl; [done|]. by destruct (ascii_dec c c). Qed.

Lemma wf_record_dated w : wf_record w → dated w.
Proof. by intros [? _]. Qed.

Lemma exercise_count_dict d l :
  dict_lookup "exercises" d = Some (VList l) →
  exercise_count (VDict d) = length l.
Proof. intros H. unfold exercise_count. simpl. by rewrite H. Qed.

(** The incoming record once line 124 has forced its date. *)
Lemma setitem_date_exercises today wd :
  has_exercise_list wd →
  ∃ dwd, wd = VDict dwd ∧
    setitem wd "date" (VStr today) = Ok (VDict (dict_set "date" (VStr today) dwd)) ∧
    has_exercise_list (VDict (dict_set "date" (VStr today) dwd)) ∧
    exercise_count (VDict (dict_set "date" (VStr today) dwd)) = exercise_count wd.
Proof.
  intros (dwd & l & -> & Hl). exists dwd. split_and!; [done..| |].
  - exists (dict_set "date" (VStr today) dwd), l.
    by rewrite dict_lookup_set_ne.
  - unfold exercise_count. simpl. by rewrite dict_lookup_set_ne.
Qed.

(** A record of the day exists: the incoming exercises are appended to it,
    in place. *)
Lemma merge_step_found py_str today wd dl ws i r :
  dict_lookup "workouts" dl = Some (VList ws) →
  Forall wf_record ws →
  list_find (on_date today) ws = Some (i, r) →
  has_exercise_list wd →
  ∃ r',
    merge py_str today wd (VDict dl) =
      Ok (VDict (dict_set "workouts" (VList (<[i := r']> ws)) dl)) ∧
    wf_record r' ∧ date_of r' = date_of r ∧
    exercise_count r' = exercise_count r + exercise_count wd.
Proof.
  intros Hws Hwf Hfind (dwd & new & -> & Hnew).
  assert (Forall dated ws) as Hdated
    by (eapply Forall_impl; [done | apply wf_record_dated]).
  pose proof Hfind as (Hi & _ & _)%list_find_Some.
  pose proof (Forall_lookup_1 _ _ _ _ Hwf Hi) as
    [(dr & s & -> & Hs) (dr' & old & [= <-] & Hold)].
  rewrite (merge_unfold _ _ _ _ _ _ Hws (find_existing_dated _ _ Hdated)), Hfind.
  rewrite dated_truthy by (by exists dr, s).
  rewrite merge_existing_dict, Hold, Hnew. simpl.
  eexists. split; [done|]. split_and!.
  - split.
    + eexists _, s. split; [done|]. by rewrite merged_lookup_other.
    + eexists _, _. split; [done|]. apply merged_lookup_exercises.
  - unfold date_of. by rewrite merged_lookup_other.
  - rewrite (exercise_count_dict _ _ (merged_lookup_exercises _ _ _ _)).
    rewrite (exercise_count_dict _ _ Hold), (exercise_count_dict _ _ Hnew).
    apply length_app.
Qed.

(** No record of the day yet: the incoming record, dated, goes to the end. *)
Lemma merge_step_new py_str today dwd dl ws :
  dict_lookup "workouts" dl = Some (VList ws) →
  Forall dated ws →
  list_find (on_date today) ws = None →
  merge py_str today (VDict dwd) (VDict dl) =
    Ok (VDict (dict_set "workouts"
                 (VList (ws ++ [VDict (dict_set "date" (VStr today) dwd)])) dl)).
Proof.
  intros Hws Hdated Hfind.
  rewrite (merge_unfold _ _ _ _ _ _ Hws (find_existing_dated _ _ Hdated)), Hfind.
  by apply create_workout_dict.
Qed.

Lemma new_record_on_date today dwd :
  on_date today (VDict (dict_set "date" (VStr today) dwd)) ∧
  date_of (VDict (dict_set "date" (VStr today) dwd)) = today ∧
  dated (VDict (dict_set "date" (VStr today) dwd)).
Proof.
  assert (date_of (VDict (dict_set "date" (VStr today) dwd)) = today) as Hd
    by (unfold date_of; by rewrite dict_lookup_set_eq).
  split_and!; [|done|].
  - unfold on_date. rewrite Hd. apply prefix_refl.
  - eexists _, today. split; [done|]. apply dict_lookup_set_eq.
Qed.

(** ** Runs in sequence *)

Lemma on_date_same_date today w w' :
  date_of w' = date_of w → on_date today w → on_date today w'.
Proof. unfold on_date. by intros ->. Qed.

(** A run on a store that has the record of the day extends this record. *)
Lemma append_found py_str now wd path d fs i r :
  d ≠ "" →
  day_state path d fs i r →
  has_exercise_list wd →
  ∃ fs' r',
    append_to_master_log py_str now wd path (Some d) fs = (Ok (), fs') ∧
    day_state path d fs' i r' ∧
    date_of r' = date_of r ∧
    exercise_count r' = exercise_count r + exercise_count wd.
Proof.
  intros Hd (dl & ws & Hload & Hws & Hwf & Hfind & Hone) Hwd.
  destruct (setitem_date_exercises d wd Hwd) as (dwd & -> & Hset & Hwd' & Hcount).
  destruct (merge_step_found py_str d _ dl ws i r Hws Hwf Hfind Hwd')
    as (r' & Hmerge & Hr' & Hdate & Hlen).
  pose proof Hfind as (Hi & Hon & _)%list_find_Some.
  assert (on_date d r') as Hon' by by eapply on_date_same_date.
  eexists _, r'. split_and!.
  - apply append_to_master_log_Ok. rewrite resolve_today_override by done.
    by eexists _, _, _.
  - eexists _, _. split_and!.
    + apply load_after_save.
    + apply dict_lookup_set_eq.
    + by apply Forall_insert.
    + by eapply list_find_replace.
    + by rewrite (filter_replace_length _ _ _ r).
  - done.
  - by rewrite Hlen, Hcount.
Qed.

(** The first run of a day on a well-formed store creates the record. *)
Lemma append_new py_str now wd path d fs dl ws :
  d ≠ "" →
  load path fs = (Ok (VDict dl), fs) →
  dict_lookup "workouts" dl = Some (VList ws) →
  Forall wf_record ws →
  list_find (on_date d) ws = None →
  has_exercise_list wd →
  ∃ fs' r',
    append_to_master_log py_str now wd path (Some d) fs = (Ok (), fs') ∧
    day_state path d fs' (length ws) r' ∧
    date_of r' = d ∧
    exercise_count r' = exercise_count wd.
Proof.
  intros Hd Hload Hws Hwf Hfind Hwd.
  destruct (setitem_date_exercises d wd Hwd) as (dwd & -> & Hset & Hwd' & Hcount).
  assert (Forall dated ws) as Hdated
    by (eapply Forall_impl; [done | apply wf_record_dated]).
  pose proof (merge_step_new py_str d (dict_set "date" (VStr d) dwd) dl ws
                Hws Hdated Hfind) as Hmerge.
  rewrite dict_set_set in Hmerge.
  destruct (new_record_on_date d dwd) as (Hon & Hdate & Hdated').
  eexists _, _. split_and!.
  - apply append_to_master_log_Ok. rewrite resolve_today_override by done.
    by eexists _, _, _.
  - eexists _, _. split_and!.
    + apply load_after_save.
    + apply dict_lookup_set_eq.
    + apply Forall_app. split; [done|]. by apply Forall_singleton.
    + by apply list_find_snoc.
    + rewrite filter_app, (list_find_None_filter _ _ Hfind).
      by rewrite filter_cons_True.
  - done.
  - done.
Qed.

Lemma run_all_found py_str path d runs : ∀ fs i r,
  d ≠ "" →
  day_state path d fs i r →
  Forall (λ run, has_exercise_list run.2) runs →
  ∃ fs' r',
    run_all py_str path d runs fs = (Ok (), fs') ∧
    day_state path d fs' i r' ∧
    date_of r' = date_of r ∧
    exercise_count r' = exercise_count r + sum_list (exercise_count <$> runs.*2).
Proof.
  induction runs as [|[now wd] runs IH]; intros fs i r Hd Hst Hruns.
  - exists fs, r. split_and!; [done..|]. simpl. lia.
  - apply Forall_cons in Hruns as [Hwd Hruns].
    destruct (append_found py_str now wd path d fs i r Hd Hst Hwd)
      as (fs1 & r1 & Hrun & Hst1 & Hdate1 & Hlen1).
    destruct (IH fs1 i r1 Hd Hst1 Hruns) as (fs' & r' & Hrest & Hst' & Hdate & Hlen).
    exists fs', r'. split_and!.
    + cbn [run_all]. unfold mbind, io_bind. by rewrite Hrun.
    + done.
    + congruence.
    + rewrite Hlen, Hlen1. csimpl. lia.
Qed.

(** When the one record of the day stores exactly [d], it is also the one
    record whose stored date is [d]. *)
Lemma only_record_dated d (ws : list value) i r :
  length (filter (on_date d) ws) = 1 →
  ws !! i = Some r → on_date d r → date_of r = d →
  length (filter (λ w, date_of w = d) ws) = 1.
Proof.
  intros Hone Hi Hon Hdate. rewrite <-Hone. symmetry.
  apply filter_agree_length. intros w Hw. split.
  - intros Hw'.
    rewrite (filter_only_one (on_date d) ws r Hone
               (list_elem_of_lookup_2 _ _ _ Hi) Hon w Hw Hw').
    done.
  - intros <-. apply prefix_refl.
Qed.

(** ** Claims *)

(** C1.  Take a store whose log is well formed and has at most one record of
    the day [d] (a record is of the day [d] when its stored date starts with
    [d], the comparison the merge itself makes), and run the program one or
    more times on it with the date override [d], each time with a record
    that carries a list of exercises.  Every run succeeds, and the resulting
    log has exactly one record of the day [d].  Its stored date is the one
    the matched record had at the start, and [d] itself when the first run
    created the record.  Its exercise list is as long as the matched
    record's list at the start (zero when the record was created) plus the
    incoming lists together: nothing is deduplicated.  When the log stores
    the day as the plain date [d], that record is the one record whose
    stored date equals [d]. *)
Theorem C1_sequential_merges_accumulate py_str path d runs fs log ws :
  d ≠ "" →
  load path fs = (Ok log, fs) →
  getitem log "workouts" = Ok (VList ws) →
  Forall wf_record ws →
  length (filter (on_date d) ws) ≤ 1 →
  runs ≠ [] →
  Forall (λ run, has_exercise_list run.2) runs →
  ∃ fs' log' ws' i r,
    run_all py_str path d runs fs = (Ok (), fs') ∧
    load path fs' = (Ok log', fs') ∧
    getitem log' "workouts" = Ok (VList ws') ∧
    length (filter (on_date d) ws') = 1 ∧
    ws' !! i = Some r ∧ on_date d r ∧
    date_of r =
      match list_find (on_date d) ws with
      | Some (_, r0) => date_of r0
      | None => d
      end ∧
    exercise_count r =
      match list_find (on_date d) ws with
      | Some (_, r0) => exercise_count r0
      | None => 0
      end + sum_list (exercise_count <$> runs.*2) ∧
    ((∀ w, w ∈ ws → on_date d w → date_of w = d) →
       date_of r = d ∧ length (filter (λ w, date_of w = d) ws') = 1).
Proof.
  intros Hd Hload Hget Hwf Hmost Hruns Hvalid.
  cut (∃ fs' log' ws' i r,
         run_all py_str path d runs fs = (Ok (), fs') ∧
         load path fs' = (Ok log', fs') ∧
         getitem log' "workouts" = Ok (VList ws') ∧
         length (filter (on_date d) ws') = 1 ∧
         ws' !! i = Some r ∧ on_date d r ∧
         date_of r =
           match list_find (on_date d) ws with
           | Some (_, r0) => date_of r0
           | None => d
           end ∧
         exercise_count r =
           match list_find (on_date d) ws with
           | Some (_, r0) => exercise_count r0
           | None => 0
           end + sum_list (exercise_count <$> runs.*2)).
  { intros (fs' & log' & ws' & i & r & ? & ? & ? & Hone & Hi & Hon & Hdate & ?).
    exists fs', log', ws', i, r. split_and!; try done.
    intros Hplain.
    assert (date_of r = d) as Hr.
    { rewrite Hdate.
      destruct (list_find (on_date d) ws) as [[i0 r0]|] eqn:Hfind; [|done].
      apply list_find_Some in Hfind as (Hi0 & Hon0 & _).
      apply Hplain; [|done]. by eapply list_elem_of_lookup_2. }
    split; [done|]. by eapply only_record_dated. }
  destruct log as [| | | | | |dl]; try done. simpl in Hget.
  destruct (dict_lookup "workouts" dl) as [v|] eqn:Hws; [|done].
  injection Hget as ->.
  assert (∀ fs' i r', day_state path d fs' i r' →
            ∃ log' ws',
              load path fs' = (Ok log', fs') ∧
              getitem log' "workouts" = Ok (VList ws') ∧
              length (filter (on_date d) ws') = 1 ∧
              ws' !! i = Some r' ∧ on_date d r') as Hout.
  { intros fs' i r' (dl' & ws' & Hl' & Hws' & _ & Hf' & Hone').
    apply list_find_Some in Hf' as (Hi & Hon & _).
    exists (VDict dl'), ws'. simpl. by rewrite Hws'. }
  destruct (list_find (on_date d) ws) as [[i r0]|] eqn:Hfind.
  - pose proof (list_find_Some_filter _ _ _ _ Hfind) as Hpos.
    assert (day_state path d fs i r0) as Hst.
    { exists dl, ws. split_and!; [done..|lia]. }
    destruct (run_all_found py_str path d runs fs i r0 Hd Hst Hvalid)
      as (fs' & r' & Hrun & Hst' & Hdate & Hlen).
    destruct (Hout _ _ _ Hst') as (log' & ws' & ? & ? & ? & ? & ?).
    by exists fs', log', ws', i, r'.
  - destruct runs as [|[now wd] runs]; [done|].
    apply Forall_cons in Hvalid as [Hwd Hvalid].
    destruct (append_new py_str now wd path d fs dl ws Hd Hload Hws Hwf Hfind Hwd)
      as (fs1 & r1 & Hrun1 & Hst1 & Hdate1 & Hlen1).
    destruct (run_all_found py_str path d runs fs1 _ r1 Hd Hst1 Hvalid)
      as (fs' & r' & Hrun & Hst' & Hdate & Hlen).
    destruct (Hout _ _ _ Hst') as (log' & ws' & ? & ? & ? & ? & ?).
    exists fs', log', ws', (length ws), r'. split_and!; try done.
    + cbn [run_all]. unfold mbind, io_bind. by rewrite Hrun1.
    + congruence.
    + rewrite Hlen, Hlen1. csimpl. lia.
Qed.

Lemma C1_sequential_merges_accumulate_witness :
  ∃ fs' log' ws' i r,
    run_all str_of_atom log_path "2025-11-01"
      [(noon, incoming_cardio); (noon, incoming_cardio)] sample_fs
    = (Ok (), fs') ∧
    load log_path fs' = (Ok log', fs') ∧
    getitem log' "workouts" = Ok (VList ws') ∧
    length (filter (on_date "2025-11-01") ws') = 1 ∧
    ws' !! i = Some r ∧ on_date "2025-11-01" r ∧
    date_of r = "2025-11-01T00:00:00" ∧
    exercise_count r = 3 ∧
    ((∀ w, w ∈ [other_day; stored_day] → on_date "2025-11-01" w →
        date_of w = "2025-11-01") →
       date_of r = "2025-11-01" ∧
       length (filter (λ w, date_of w = "2025-11-01") ws') = 1).
Proof.
  apply (C1_sequential_merges_accumulate str_of_atom log_path "2025-11-01"
           [(noon, incoming_cardio); (noon, incoming_cardio)] sample_fs
           sample_log [other_day; stored_day]).
  - done.
  - reflexivity.
  - reflexivity.
  - repeat constructor; by eexists _, _.
  - vm_compute. lia.
  - done.
  - repeat constructor; by eexists _, _.
Defined.

(** ** The matched record after a successful merge *)

(** The record the merge leaves in place of the matched one. *)
Lemma merge_matched_inv py_str today wd log ws i w log' :
  getitem log "workouts" = Ok (VList ws) →
  find_existing today ws = Ok (Some (i, w)) →
  truthy w = true →
  merge py_str today wd log = Ok log' →
  ∃ dl dw dwd old inc new,
    log = VDict dl ∧ w = VDict dw ∧ wd = VDict dwd ∧
    dict_lookup "exercises" dw = Some (VList old) ∧
    dict_lookup "exercises" dwd = Some inc ∧ iter inc = Ok new ∧
    log' = VDict (dict_set "workouts"
                    (VList (<[i := VDict (reconcile_notes py_str dwd
                                            (reconcile_type dwd
                                               (dict_set "exercises"
                                                  (VList (old ++ new)) dw)))]>
                              ws)) dl).
Proof.
  intros Hget Hfind Htrue Hmerge.
  destruct log as [| | | | | |dl]; try done. simpl in Hget.
  destruct (dict_lookup "workouts" dl) as [v|] eqn:Hws; [|done].
  injection Hget as ->.
  rewrite (merge_unfold _ _ _ _ _ _ Hws Hfind), Htrue in Hmerge.
  apply bind_Ok in Hmerge as (w' & Hw' & [= <-]).
  apply merge_existing_Ok in Hw'
    as (dw & dwd & old & inc & new & -> & -> & Hold & Hinc & Hnew & ->).
  by exists dl, dw, dwd, old, inc, new.
Qed.

Lemma merged_lookup_type py_str dwd dw exercises :
  dict_lookup "workout_type"
    (reconcile_notes py_str dwd
       (reconcile_type dwd (dict_set "exercises" exercises dw)))
  = if truthy (default VNone (dict_lookup "workout_type" dwd))
       && not_equal (default VNone (dict_lookup "workout_type" dwd))
            (default VNone (dict_lookup "workout_type" dw))
    then Some (VStr "mixed")
    else dict_lookup "workout_type" dw.
Proof.
  rewrite reconcile_notes_lookup_ne by done. unfold reconcile_type.
  rewrite (dict_lookup_set_ne "exercises" "workout_type") by done.
  destruct (_ && _).
  - apply dict_lookup_set_eq.
  - by apply dict_lookup_set_ne.
Qed.

Lemma merged_lookup_notes py_str dwd dw exercises :
  dict_lookup "notes"
    (reconcile_notes py_str dwd
       (reconcile_type dwd (dict_set "exercises" exercises dw)))
  = let n := default VNone (dict_lookup "notes" dwd) in
    let e := default (VStr "") (dict_lookup "notes" dw) in
    if truthy n then
      if truthy e
      then Some (VStr (format_field py_str e +:+ "; " +:+ format_field py_str n))
      else Some n
    else dict_lookup "notes" dw.
Proof.
  unfold reconcile_notes.
  rewrite (reconcile_type_lookup_ne "notes") by done.
  rewrite (dict_lookup_set_ne "exercises" "notes") by done. simpl.
  destruct (truthy (default VNone _)).
  - destruct (truthy (default (VStr "") _)); apply dict_lookup_set_eq.
  - rewrite reconcile_type_lookup_ne by done. by apply dict_lookup_set_ne.
Qed.

Lemma workouts_after_update dl (ws : list value) :
  getitem (VDict (dict_set "workouts" (VList ws) dl)) "workouts"
  = Ok (VList ws).
Proof. simpl. by rewrite dict_lookup_set_eq. Qed.

(** A truthy value differs from [None] and from the empty string. *)
Lemma truthy_differs_from_none t : truthy t = true → equal t VNone = false.
Proof. by destruct t as [| | |[]| | |]. Qed.

Lemma truthy_differs_from_empty t : truthy t = true → equal t (VStr "") = false.
Proof.
  destruct t as [| | |[]|s| |]; try done. simpl. intros H.
  apply bool_decide_eq_false. by destruct s.
Qed.

Lemma find_existing_lookup today ws : ∀ i w,
  find_existing today ws = Ok (Some (i, w)) → ws !! i = Some w.
Proof.
  induction ws as [|x ws IH]; intros i w H; [done|].
  cbn [find_existing] in H.
  apply bind_Ok in H as (workout_date & _ & H).
  apply bind_Ok in H as ([] & _ & H).
  - by injection H as <- <-.
  - apply bind_Ok in H as ([[j w']|] & Hrest & H); [|done].
    injection H as <- <-. by apply IH.
Qed.

Lemma create_workout_Ok today wd dl ws log' :
  dict_lookup "workouts" dl = Some (VList ws) →
  create_workout today wd (VDict dl) = Ok log' →
  ∃ dwd, wd = VDict dwd ∧
    log' = VDict (dict_set "workouts"
                    (VList (ws ++ [VDict (dict_set "date" (VStr today) dwd)])) dl).
Proof.
  intros Hws H. destruct wd as [| | | | | |dwd]; try done.
  rewrite (create_workout_dict _ _ _ _ Hws) in H. injection H as <-.
  by exists dwd.
Qed.

(** C3.  On a log whose records are objects with a string date (or none,
    which reads as the empty string), the scan returns the first record, in
    list order, whose stored date starts with the target date, and nothing
    when no stored date does.  The date of a run is never empty, and then
    the record the scan returns is the one the merge updates.  A stored
    "2025-11-01T00:00:00" is found for the target "2025-11-01", a stored
    "2025-11-02" is not. *)
Theorem C3_first_prefix_match today ws :
  Forall scannable ws →
  (∀ i w, find_existing today ws = Ok (Some (i, w)) ↔
     ws !! i = Some w ∧ String.prefix today (date_of w) = true ∧
     ∀ j w', ws !! j = Some w' → j < i →
       String.prefix today (date_of w') = false) ∧
  (find_existing today ws = Ok None ↔
     ∀ w, w ∈ ws → String.prefix today (date_of w) = false) ∧
  (today ≠ "" →
     ∀ i w, find_existing today ws = Ok (Some (i, w)) → truthy w = true) ∧
  (∀ now date_override, resolve_today now date_override ≠ "") ∧
  find_existing "2025-11-01" [VDict [("date", VStr "2025-11-01T00:00:00")]]
    = Ok (Some (0, VDict [("date", VStr "2025-11-01T00:00:00")])) ∧
  find_existing "2025-11-01" [VDict [("date", VStr "2025-11-02")]] = Ok None.
Proof.
  intros Hscan. rewrite (find_existing_scannable _ _ Hscan).
  split_and!; [| | |apply resolve_today_nonempty|done..].
  - intros i w. split.
    + intros [= H]. apply list_find_Some in H as (Hi & Hon & Hbefore).
      split_and!; [done..|]. intros j w' Hj Hlt.
      apply not_true_is_false. by eapply Hbefore.
    + intros (Hi & Hon & Hbefore). f_equal. apply list_find_Some.
      split_and!; [done..|]. intros j w' Hj Hlt Hon'.
      unfold on_date in Hon'. by rewrite (Hbefore j w' Hj Hlt) in Hon'.
  - split.
    + intros [= H]. rewrite list_find_None, Forall_forall in H.
      intros w Hw. apply not_true_is_false. by apply H.
    + intros H. f_equal. apply list_find_None, Forall_forall.
      intros w Hw Hon. unfold on_date in Hon. by rewrite (H w Hw) in Hon.
  - intros Htoday i w [= H]. apply list_find_Some in H as (Hi & Hon & _).
    eapply on_date_truthy; [done| |done]. by eapply Forall_lookup_1.
Qed.

Lemma C3_first_prefix_match_witness :
  find_existing "2025-11-01" [other_day; stored_day] = Ok (Some (1, stored_day)) ↔
    [other_day; stored_day] !! 1 = Some stored_day ∧
    String.prefix "2025-11-01" (date_of stored_day) = true ∧
    ∀ j w', [other_day; stored_day] !! j = Some w' → j < 1 →
      String.prefix "2025-11-01" (date_of w') = false.
Proof.
  assert (Forall scannable [other_day; stored_day]) as H.
  { apply Forall_cons_2; [|apply Forall_cons_2; [|apply Forall_nil_2]];
      (eexists; split; [done | right; by eexists]). }
  exact (proj1 (C3_first_prefix_match "2025-11-01" [other_day; stored_day] H)
           1 stored_day).
Defined.

(** C4.  When a matching record is found and the merge succeeds: if the
    incoming record gives a workout type (a true value) that differs from
    the matched record's, the matched record's type becomes "mixed"; if it
    gives none, or the same one, the type of the matched record is as
    before. *)
Theorem C4_workout_type_reconciled py_str today wd log ws i w log' :
  getitem log "workouts" = Ok (VList ws) →
  find_existing today ws = Ok (Some (i, w)) →
  truthy w = true →
  merge py_str today wd log = Ok log' →
  ∃ ws' w',
    getitem log' "workouts" = Ok (VList ws') ∧ ws' !! i = Some w' ∧
    let incoming := default VNone (field "workout_type" wd) in
    let existing := default VNone (field "workout_type" w) in
    (truthy incoming = true → equal incoming existing = false →
       field "workout_type" w' = Some (VStr "mixed")) ∧
    (truthy incoming = false ∨ equal incoming existing = true →
       field "workout_type" w' = field "workout_type" w).
Proof.
  intros Hget Hfind Htrue Hmerge.
  pose proof (find_existing_lookup _ _ _ _ Hfind) as Hi.
  destruct (merge_matched_inv _ _ _ _ _ _ _ _ Hget Hfind Htrue Hmerge)
    as (dl & dw & dwd & old & inc & new & -> & -> & -> & Hold & Hinc & Hnew & ->).
  eexists _, _. split; [apply workouts_after_update|].
  split; [apply list_lookup_insert_eq; by eapply lookup_lt_Some|].
  cbn [field]. rewrite merged_lookup_type. unfold not_equal. split.
  - by intros -> ->.
  - intros [-> | ->]; [done|]. by rewrite andb_false_r.
Qed.

Lemma C4_workout_type_reconciled_witness :
  ∃ ws' w',
    getitem
      (VDict [("workouts",
               VList [other_day;
                      VDict [("date", VStr "2025-11-01T00:00:00");
                             ("exercises", VList [squat; jog]);
                             ("workout_type", VStr "mixed");
                             ("duration", VStr "40 min");
                             ("notes", VStr "tired; felt great")]])])
      "workouts" = Ok (VList ws') ∧
    ws' !! 1 = Some w' ∧
    (truthy (VStr "cardio") = true →
     equal (VStr "cardio") (VStr "strength") = false →
     field "workout_type" w' = Some (VStr "mixed")) ∧
    (truthy (VStr "cardio") = false ∨
     equal (VStr "cardio") (VStr "strength") = true →
     field "workout_type" w' = field "workout_type" stored_day).
Proof.
  apply (C4_workout_type_reconciled str_of_atom "2025-11-01" incoming_cardio
           sample_log [other_day; stored_day] 1 stored_day);
    reflexivity.
Defined.

(** C5.  When a matching record is found and the merge succeeds: incoming
    notes that are not empty are appended to existing notes that are not
    empty, after the separator "; " (for two strings [e] and [n] the result
    is [e; n]); they become the notes as they are when the existing notes
    are empty or missing; and empty or missing incoming notes leave the
    existing notes as they were. *)
Theorem C5_notes_reconciled py_str today wd log ws i w log' :
  getitem log "workouts" = Ok (VList ws) →
  find_existing today ws = Ok (Some (i, w)) →
  truthy w = true →
  merge py_str today wd log = Ok log' →
  ∃ ws' w',
    getitem log' "workouts" = Ok (VList ws') ∧ ws' !! i = Some w' ∧
    let incoming := default VNone (field "notes" wd) in
    let existing := default (VStr "") (field "notes" w) in
    (truthy incoming = true → truthy existing = true →
       field "notes" w' =
         Some (VStr (format_field py_str existing +:+ "; "
                       +:+ format_field py_str incoming))) ∧
    (∀ e n, existing = VStr e → incoming = VStr n → e ≠ "" → n ≠ "" →
       field "notes" w' = Some (VStr (e +:+ "; " +:+ n))) ∧
    (truthy incoming = true → truthy existing = false →
       field "notes" w' = Some incoming) ∧
    (truthy incoming = false → field "notes" w' = field "notes" w).
Proof.
  intros Hget Hfind Htrue Hmerge.
  pose proof (find_existing_lookup _ _ _ _ Hfind) as Hi.
  destruct (merge_matched_inv _ _ _ _ _ _ _ _ Hget Hfind Htrue Hmerge)
    as (dl & dw & dwd & old & inc & new & -> & -> & -> & Hold & Hinc & Hnew & ->).
  eexists _, _. split; [apply workouts_after_update|].
  split; [apply list_lookup_insert_eq; by eapply lookup_lt_Some|].
  cbn [field]. rewrite merged_lookup_notes. cbn zeta. split_and!.
  - by intros -> ->.
  - intros e n -> -> He Hn. simpl.
    by rewrite !bool_decide_eq_false_2.
  - by intros -> ->.
  - by intros ->.
Qed.

Lemma C5_notes_reconciled_witness :
  ∃ ws' w',
    getitem
      (VDict [("workouts",
               VList [other_day;
                      VDict [("date", VStr "2025-11-01T00:00:00");
                             ("exercises", VList [squat; jog]);
                             ("workout_type", VStr "mixed");
                             ("duration", VStr "40 min");
                             ("notes", VStr "tired; felt great")]])])
      "workouts" = Ok (VList ws') ∧
    ws' !! 1 = Some w' ∧
    (truthy (VStr "felt great") = true → truthy (VStr "tired") = true →
       field "notes" w' =
         Some (VStr (format_field str_of_atom (VStr "tired") +:+ "; "
                       +:+ format_field str_of_atom (VStr "felt great")))) ∧
    (∀ e n, VStr "tired" = VStr e → VStr "felt great" = VStr n →
       e ≠ "" → n ≠ "" →
       field "notes" w' = Some (VStr (e +:+ "; " +:+ n))) ∧
    (truthy (VStr "felt great") = true → truthy (VStr "tired") = false →
       field "notes" w' = Some (VStr "felt great")) ∧
    (truthy (VStr "felt great") = false →
       field "notes" w' = field "notes" stored_day).
Proof.
  apply (C5_notes_reconciled str_of_atom "2025-11-01" incoming_cardio
           sample_log [other_day; stored_day] 1 stored_day);
    reflexivity.
Defined.

(** C10.  When the matched record has no workout type (the field is
    missing, null or the empty string) and the incoming record gives one,
    the matched record's type becomes "mixed": the incoming type is not
    taken over. *)
Theorem C10_absent_type_becomes_mixed py_str today wd log ws i w log' :
  getitem log "workouts" = Ok (VList ws) →
  find_existing today ws = Ok (Some (i, w)) →
  truthy w = true →
  merge py_str today wd log = Ok log' →
  truthy (default VNone (field "workout_type" wd)) = true →
  field "workout_type" w = None ∨ field "workout_type" w = Some VNone
    ∨ field "workout_type" w = Some (VStr "") →
  ∃ ws' w',
    getitem log' "workouts" = Ok (VList ws') ∧ ws' !! i = Some w' ∧
    field "workout_type" w' = Some (VStr "mixed").
Proof.
  intros Hget Hfind Htrue Hmerge Hinc Habsent.
  pose proof (find_existing_lookup _ _ _ _ Hfind) as Hi.
  destruct (merge_matched_inv _ _ _ _ _ _ _ _ Hget Hfind Htrue Hmerge)
    as (dl & dw & dwd & old & inc & new & -> & -> & -> & Hold & _ & Hnew & ->).
  eexists _, _. split; [apply workouts_after_update|].
  split; [apply list_lookup_insert_eq; by eapply lookup_lt_Some|].
  cbn [field] in *. rewrite merged_lookup_type, Hinc. unfold not_equal.
  destruct Habsent as [-> | [-> | ->]]; simpl;
    by rewrite ?truthy_differs_from_none, ?truthy_differs_from_empty.
Qed.

Lemma C10_absent_type_becomes_mixed_witness :
  ∃ ws' w',
    getitem
      (VDict [("workouts",
               VList [VDict [("date", VStr "2025-11-02");
                             ("exercises", VList [jog]);
                             ("workout_type", VStr "mixed");
                             ("notes", VStr "felt great")];
                      stored_day])])
      "workouts" = Ok (VList ws') ∧
    ws' !! 0 = Some w' ∧ field "workout_type" w' = Some (VStr "mixed").
Proof.
  apply (C10_absent_type_becomes_mixed str_of_atom "2025-11-02" incoming_cardio
           sample_log [other_day; stored_day] 0 other_day);
    try reflexivity.
  by left.
Defined.

(** C8.  After a successful merge no record has left the log and every
    record but the matched one is as it was, at its position.  When a
    matching record is found the log keeps its length, and the matched
    record keeps every field other than exercises, workout_type and notes:
    its stored date and its duration among them. *)
Theorem C8_merge_frame py_str today wd log ws log' :
  getitem log "workouts" = Ok (VList ws) →
  merge py_str today wd log = Ok log' →
  ∃ ws',
    getitem log' "workouts" = Ok (VList ws') ∧
    length ws ≤ length ws' ∧
    (∀ j w0, ws !! j = Some w0 →
       find_existing today ws ≠ Ok (Some (j, w0)) → ws' !! j = Some w0) ∧
    (∀ i w, find_existing today ws = Ok (Some (i, w)) → truthy w = true →
       length ws' = length ws ∧
       ∃ w', ws' !! i = Some w' ∧
         field "date" w' = field "date" w ∧
         field "duration" w' = field "duration" w ∧
         ∀ k, k ≠ "exercises" → k ≠ "workout_type" → k ≠ "notes" →
           field k w' = field k w).
Proof.
  intros Hget Hmerge.
  destruct log as [| | | | | |dl]; try done. pose proof Hget as Hget'.
  simpl in Hget'.
  destruct (dict_lookup "workouts" dl) as [v|] eqn:Hws; [|done].
  injection Hget' as ->.
  destruct (find_existing today ws) as [found|e] eqn:Hfind.
  2:{ unfold merge in Hmerge. simpl in Hmerge.
      rewrite Hws in Hmerge. simpl in Hmerge. by rewrite Hfind in Hmerge. }
  rewrite (merge_unfold _ _ _ _ _ _ Hws Hfind) in Hmerge.
  assert (create_workout today wd (VDict dl) = Ok log' →
          (∀ i w, found = Some (i, w) → truthy w = false) →
          ∃ ws',
            getitem log' "workouts" = Ok (VList ws') ∧
            length ws ≤ length ws' ∧
            (∀ j w0, ws !! j = Some w0 →
               Ok found ≠ Ok (Some (j, w0)) → ws' !! j = Some w0) ∧
            (∀ i w, Ok found = Ok (Some (i, w)) → truthy w = true →
               length ws' = length ws ∧
               ∃ w', ws' !! i = Some w' ∧
                 field "date" w' = field "date" w ∧
                 field "duration" w' = field "duration" w ∧
                 ∀ k, k ≠ "exercises" → k ≠ "workout_type" → k ≠ "notes" →
                   field k w' = field k w)) as Hnew.
  { intros Hcreate Hfalsy.
    apply (create_workout_Ok _ _ _ _ _ Hws) in Hcreate as (dwd & -> & ->).
    eexists. split; [apply workouts_after_update|]. split_and!.
    - rewrite length_app. lia.
    - intros j w0 Hj _. by apply lookup_app_l_Some.
    - intros i w [= ->] Hw. by rewrite (Hfalsy i w) in Hw. }
  destruct found as [[i w]|]; [|by apply Hnew].
  destruct (truthy w) eqn:Htrue;
    [|apply Hnew; [done|]; by intros ?? [= <- <-]].
  clear Hnew. apply bind_Ok in Hmerge as (w' & Hw' & [= <-]).
  apply merge_existing_Ok in Hw'
    as (dw & dwd & old & inc & new & -> & -> & Hold & Hinc & Hnew & ->).
  pose proof (find_existing_lookup _ _ _ _ Hfind) as Hi.
  eexists. split; [apply workouts_after_update|]. split_and!.
  - by rewrite length_insert.
  - intros j w0 Hj Hne. rewrite list_lookup_insert_ne; [done|].
    intros <-. by simplify_eq.
  - intros i' w1 [= <- <-] _. split; [apply length_insert|].
    eexists. split; [apply list_lookup_insert_eq; by eapply lookup_lt_Some|].
    cbn [field]. split_and!; intros; by rewrite merged_lookup_other.
Qed.

Lemma C8_merge_frame_witness :
  ∃ ws',
    getitem
      (VDict [("workouts",
               VList [other_day;
                      VDict [("date", VStr "2025-11-01T00:00:00");
                             ("exercises", VList [squat; jog]);
                             ("workout_type", VStr "mixed");
                             ("duration", VStr "40 min");
                             ("notes", VStr "tired; felt great")]])])
      "workouts" = Ok (VList ws') ∧
    length [other_day; stored_day] ≤ length ws' ∧
    (∀ j w0, [other_day; stored_day] !! j = Some w0 →
       find_existing "2025-11-01" [other_day; stored_day] ≠ Ok (Some (j, w0)) →
       ws' !! j = Some w0) ∧
    (∀ i w,
       find_existing "2025-11-01" [other_day; stored_day] = Ok (Some (i, w)) →
       truthy w = true →
       length ws' = length [other_day; stored_day] ∧
       ∃ w', ws' !! i = Some w' ∧
         field "date" w' = field "date" w ∧
         field "duration" w' = field "duration" w ∧
         ∀ k, k ≠ "exercises" → k ≠ "workout_type" → k ≠ "notes" →
           field k w' = field k w).
Proof.
  apply (C8_merge_frame str_of_atom "2025-11-01" incoming_cardio sample_log
           [other_day; stored_day]);
    reflexivity.
Defined.

(** C7.  On an empty log (no file yet, or a log without records) the run
    writes a log with exactly one record: the incoming record with its
    [date] set to the date of the run, whatever date it carried, and every
    other field as it came. *)
Theorem C7_merge_into_empty_log py_str now dwd path dov fs log :
  load path fs = (Ok log, fs) →
  getitem log "workouts" = Ok (VList []) →
  let d := resolve_today now dov in
  ∃ fs' log' r,
    append_to_master_log py_str now (VDict dwd) path dov fs = (Ok (), fs') ∧
    load path fs' = (Ok log', fs') ∧
    getitem log' "workouts" = Ok (VList [r]) ∧
    r = VDict (dict_set "date" (VStr d) dwd) ∧
    field "date" r = Some (VStr d) ∧
    ∀ k, k ≠ "date" → field k r = field k (VDict dwd).
Proof.
  intros Hload Hget d.
  destruct log as [| | | | | |dl]; try done. simpl in Hget.
  destruct (dict_lookup "workouts" dl) as [v|] eqn:Hws; [|done].
  injection Hget as ->.
  pose proof (merge_step_new py_str d (dict_set "date" (VStr d) dwd) dl []
                Hws (Forall_nil_2 _) eq_refl) as Hmerge.
  rewrite dict_set_set in Hmerge.
  eexists _, _, _. split_and!.
  - apply append_to_master_log_Ok. by eexists _, _, _.
  - apply load_after_save.
  - apply workouts_after_update.
  - done.
  - apply dict_lookup_set_eq.
  - intros k Hk. by apply dict_lookup_set_ne.
Qed.

Lemma C7_merge_into_empty_log_witness :
  ∃ fs' log' r,
    append_to_master_log str_of_atom noon incoming_cardio log_path
      (Some "2025-11-01") ∅ = (Ok (), fs') ∧
    load log_path fs' = (Ok log', fs') ∧
    getitem log' "workouts" = Ok (VList [r]) ∧
    r = VDict [("exercises", VList [jog]);
               ("workout_type", VStr "cardio");
               ("notes", VStr "felt great");
               ("date", VStr "2025-11-01")] ∧
    field "date" r = Some (VStr "2025-11-01") ∧
    ∀ k, k ≠ "date" → field k r = field k incoming_cardio.
Proof.
  apply (C7_merge_into_empty_log str_of_atom noon
           [("exercises", VList [jog]); ("workout_type", VStr "cardio");
            ("notes", VStr "felt great"); ("date", VStr "yesterday")]
           log_path (Some "2025-11-01") ∅ (VDict [("workouts", VList [])]));
    reflexivity.
Defined.

Lemma spec_valid_has_exercises wd :
  spec_valid_record wd = true → has_exercise_list wd.
Proof.
  destruct wd as [| | | | | |d]; try done. simpl.
  destruct (dict_lookup "exercises" d) as [[| | | | |l|]|] eqn:Hl; try done.
  intros _. by exists d, l.
Qed.

(** C9.  With an incoming record that meets the validation contract and a
    well-formed log (an object whose workouts are records with a string
    date and a list of exercises; a missing file counts as the empty log),
    nothing raises: forcing the date, the merge and the run as a whole all
    return. *)
Theorem C9_merge_raises_nothing py_str now wd path dov fs log ws :
  spec_valid_record wd = true →
  load path fs = (Ok log, fs) →
  getitem log "workouts" = Ok (VList ws) →
  Forall wf_record ws →
  ∃ wd' log',
    setitem wd "date" (VStr (resolve_today now dov)) = Ok wd' ∧
    merge py_str (resolve_today now dov) wd' log = Ok log' ∧
    append_to_master_log py_str now wd path dov fs
      = (Ok (), <[path := Json log']> fs).
Proof.
  intros Hvalid%spec_valid_has_exercises Hload Hget Hwf.
  destruct log as [| | | | | |dl]; try done. simpl in Hget.
  destruct (dict_lookup "workouts" dl) as [v|] eqn:Hws; [|done].
  injection Hget as ->.
  destruct (setitem_date_exercises (resolve_today now dov) wd Hvalid)
    as (dwd & -> & Hset & Hwd' & _).
  assert (∃ log', merge py_str (resolve_today now dov)
                    (VDict (dict_set "date" (VStr (resolve_today now dov)) dwd))
                    (VDict dl) = Ok log') as [log' Hmerge].
  { destruct (list_find (on_date (resolve_today now dov)) ws) as [[i r]|] eqn:Hfind.
    - destruct (merge_step_found py_str _ _ dl ws i r Hws Hwf Hfind Hwd')
        as (r' & Hmerge & _). by eexists.
    - eexists. apply merge_step_new; [done| |done].
      eapply Forall_impl; [done | apply wf_record_dated]. }
  eexists _, log'. split_and!; [done..|].
  apply append_to_master_log_Ok. by eexists _, _, _.
Qed.

Lemma C9_merge_raises_nothing_witness :
  ∃ wd' log',
    setitem incoming_cardio "date" (VStr (resolve_today noon None)) = Ok wd' ∧
    merge str_of_atom (resolve_today noon None) wd' sample_log = Ok log' ∧
    append_to_master_log str_of_atom noon incoming_cardio log_path None sample_fs
      = (Ok (), <[log_path := Json log']> sample_fs).
Proof.
  apply (C9_merge_raises_nothing str_of_atom noon incoming_cardio log_path None
           sample_fs sample_log [other_day; stored_day]).
  - reflexivity.
  - reflexivity.
  - reflexivity.
  - repeat constructor; by eexists _, _.
Defined.

(** A string that is not empty has a first character. *)
Lemma chars_nonempty a s : ∃ x l, chars (String a s) = VStr x :: l.
Proof.
  unfold chars. cbn [utf8_chars]. destruct (utf8_chars s) as [tail rest].
  destruct (is_continuation a); by eexists _, _.
Qed.

(** A log that is not an object with a list of workouts makes the merge
    raise, whatever the incoming record. *)
Lemma merge_bad_shape py_str today wd log :
  ¬ log_shape log → ∃ e, merge py_str today wd log = Raise e.
Proof.
  intros Hshape. destruct log as [| | | | | |dl]; try by eexists.
  unfold merge. simpl.
  destruct (dict_lookup "workouts" dl) as [v|] eqn:Hws; [|by eexists].
  destruct v as [| | | |s|l|d]; try (simpl; by eexists).
  - destruct s as [|a s].
    + simpl. unfold create_workout.
      destruct wd; simpl; try by eexists. rewrite Hws. simpl. by eexists.
    + destruct (chars_nonempty a s) as (x & l & Hchars).
      cbn [iter mbind result_bind]. rewrite Hchars. simpl. by eexists.
  - destruct Hshape. by exists dl, l.
  - destruct d as [|[k x] d]; [|simpl; by eexists]. simpl.
    unfold create_workout.
    destruct wd; simpl; try by eexists. rewrite Hws. simpl. by eexists.
Qed.

(** C6.  Loading a path that holds no file gives the empty log and is no
    error.  A file that is no JSON document makes the load raise: the run
    stops there, with the merge not run and the files as they were; so does
    a document that is not an object with a list of workouts. *)
Theorem C6_load_bootstrap_or_abort py_str now wd path dov fs :
  (fs !! path = None →
     load path fs = (Ok (VDict [("workouts", VList [])]), fs)) ∧
  (∀ s, fs !! path = Some (Other s) →
     load path fs = (Raise JSONDecodeError, fs) ∧
     (∃ e, append_to_master_log py_str now wd path dov fs = (Raise e, fs)) ∧
     (∀ dwd, wd = VDict dwd →
        append_to_master_log py_str now wd path dov fs
          = (Raise JSONDecodeError, fs))) ∧
  (∀ log, fs !! path = Some (Json log) → ¬ log_shape log →
     ∃ e, append_to_master_log py_str now wd path dov fs = (Raise e, fs)).
Proof.
  split_and!.
  - intros H. unfold load. by rewrite H.
  - intros s H.
    assert (load path fs = (Raise JSONDecodeError, fs)) as Hload
      by (unfold load; by rewrite H).
    split_and!; [done| |].
    + unfold append_to_master_log, mbind, io_bind, lift.
      destruct (setitem wd _ _); [|by eexists]. rewrite Hload. by eexists.
    + intros dwd ->. unfold append_to_master_log, mbind, io_bind, lift.
      simpl. by rewrite Hload.
  - intros log H Hshape.
    unfold append_to_master_log, mbind, io_bind, lift.
    destruct (setitem wd _ _) as [wd'|]; [|by eexists].
    unfold load at 1. rewrite H.
    destruct (merge_bad_shape py_str (resolve_today now dov) wd' log Hshape)
      as [e ->].
    by eexists.
Qed.

Lemma C6_load_bootstrap_or_abort_witness :
  load log_path ∅ = (Ok (VDict [("workouts", VList [])]), ∅) ∧
  append_to_master_log str_of_atom noon incoming_cardio log_path None
    {[ log_path := Other "not json" ]}
    = (Raise JSONDecodeError, {[ log_path := Other "not json" ]}).
Proof.
  split.
  - apply (C6_load_bootstrap_or_abort str_of_atom noon incoming_cardio
             log_path None ∅).
    reflexivity.
  - eapply (C6_load_bootstrap_or_abort str_of_atom noon incoming_cardio
              log_path None {[ log_path := Other "not json" ]});
      reflexivity.
Defined.

(** ** The process *)

(** In calm surroundings the run is the run of [append_to_master_log]. *)
Lemma append_to_master_log_in_calm py_str now wd path dov fs :
  append_to_master_log_in py_str calm now wd path dov fs
  = append_to_master_log py_str now wd path dov fs.
Proof.
  unfold append_to_master_log_in, append_to_master_log, mbind, io_bind, lift,
    save_in, save.
  destruct (setitem wd _ _) as [wd'|]; [|done].
  destruct (load path fs) as [[log|] fs1]; [|done].
  by destruct (merge _ _ _ _).
Qed.




(** ** The model at work *)

Example merge_same_type_keeps_it :
  merge str_of_atom "2025-11-01"
    (VDict [("exercises", VList [jog]); ("workout_type", VStr "cardio")])
    (VDict [("workouts",
             VList [VDict [("date", VStr "2025-11-01");
                           ("exercises", VList []);
                           ("workout_type", VStr "cardio")]])])
  = Ok (VDict [("workouts",
                VList [VDict [("date", VStr "2025-11-01");
                              ("exercises", VList [jog]);
                              ("workout_type", VStr "cardio")]])]).
Proof. reflexivity. Qed.

Example merge_empty_notes_keeps_them :
  merge str_of_atom "2025-11-01"
    (VDict [("exercises", VList []); ("notes", VStr "")])
    (VDict [("workouts",
             VList [VDict [("date", VStr "2025-11-01");
                           ("exercises", VList [squat]);
                           ("notes", VStr "tired")]])])
  = Ok (VDict [("workouts",
                VList [VDict [("date", VStr "2025-11-01");
                              ("exercises", VList [squat]);
                              ("notes", VStr "tired")]])]).
Proof. reflexivity. Qed.

Example merge_without_exercises_raises :
  merge str_of_atom "2025-11-01" no_exercises sample_log = Raise KeyError.
Proof. reflexivity. Qed.

Example merge_other_day_appends :
  merge str_of_atom "2025-11-03" (VDict [("exercises", VList [jog])]) sample_log
  = Ok (VDict [("workouts",
                VList [other_day; stored_day;
                       VDict [("exercises", VList [jog]);
                              ("date", VStr "2025-11-03")]])]).
Proof. reflexivity. Qed.

Example empty_override_means_today :
  resolve_today noon (Some "") = "2025-11-03".
Proof. reflexivity. Qed.

Example numbers_compare_by_value :
  equal (VBool true) (VFloat (S754_finite false 1 0)) = true ∧
  equal (VInt 3) (VFloat (S754_finite false 6 (-1))) = true ∧
  equal (VFloat S754_nan) (VFloat S754_nan) = false ∧
  equal (VList [VFloat S754_nan]) (VList [VFloat S754_nan]) = true.
Proof. by split_and!. Qed.

Example base_name_of_audio_file :
  rsplit_head "tapes/leg.day.mp3" = "tapes/leg.day" ∧ rsplit_head "tape" = "tape".
Proof. by split. Qed.

(** ** More on the merge *)

Lemma dict_set_overwrite k v v' d :
  dict_set k v (dict_set k v' d) = dict_set k v d.
Proof.
  induction d as [|[k0 v0] d IH]; simpl.
  - by rewrite decide_True.
  - destruct (decide (k0 = k)) as [->|Hne]; simpl.
    + by rewrite decide_True.
    + rewrite decide_False by done. by rewrite IH.
Qed.

(** What a merge that returns has done, in full. *)
Lemma merge_Ok_inv py_str today wd log log' :
  merge py_str today wd log = Ok log' →
  ∃ dl ws found,
    log = VDict dl ∧ dict_lookup "workouts" dl = Some (VList ws) ∧
    find_existing today ws = Ok found ∧
    ((∃ i w w', found = Some (i, w) ∧ truthy w = true ∧
        merge_existing py_str w wd = Ok w' ∧
        log' = VDict (dict_set "workouts" (VList (<[i := w']> ws)) dl)) ∨
     ((∀ i w, found = Some (i, w) → truthy w = false) ∧
      ∃ dwd, wd = VDict dwd ∧
        log' = VDict (dict_set "workouts"
                        (VList (ws ++ [VDict (dict_set "date" (VStr today) dwd)]))
                        dl))).
Proof.
  intros Hmerge.
  assert (log_shape log) as (dl & ws & -> & Hws).
  { destruct log as [| | | | | |dl]; try done.
    destruct (dict_lookup "workouts" dl) as [v|] eqn:Hws;
      [|unfold merge in Hmerge; simpl in Hmerge; by rewrite Hws in Hmerge].
    destruct v as [| | | | |l|dv];
      try (destruct (merge_bad_shape py_str today wd (VDict dl)) as [e He];
           [intros (d & ws & [= <-] & Hl) | ]; congruence).
    by exists dl, l. }
  exists dl, ws.
  destruct (find_existing today ws) as [found|e] eqn:Hfind.
  2:{ unfold merge in Hmerge. simpl in Hmerge. rewrite Hws in Hmerge.
      simpl in Hmerge. by rewrite Hfind in Hmerge. }
  exists found. split_and!; [done..|].
  rewrite (merge_unfold _ _ _ _ _ _ Hws Hfind) in Hmerge.
  destruct found as [[i w]|].
  - destruct (truthy w) eqn:Htrue.
    + left. apply bind_Ok in Hmerge as (w' & Hw' & [= <-]).
      by exists i, w, w'.
    + right. split; [by intros ?? [= <- <-]|].
      by apply (create_workout_Ok _ _ _ _ _ Hws).
  - right. split; [done|]. by apply (create_workout_Ok _ _ _ _ _ Hws).
Qed.

Lemma append_to_master_log_merge_Raise py_str now dwd path dov fs log e :
  load path fs = (Ok log, fs) →
  merge py_str (resolve_today now dov)
    (VDict (dict_set "date" (VStr (resolve_today now dov)) dwd)) log = Raise e →
  append_to_master_log py_str now (VDict dwd) path dov fs = (Raise e, fs).
Proof.
  intros Hload Hmerge. unfold append_to_master_log, mbind, io_bind, lift.
  simpl. by rewrite Hload, Hmerge.
Qed.

Lemma prefix_app s t : String.prefix s (s +:+ t) = true.
Proof.
  induction s as [|c s IH]; simpl; [by destruct t|].
  by destruct (ascii_dec c c).
Qed.

Lemma prefix_length s t :
  String.prefix s t = true → (String.length s ≤ String.length t)%nat.
Proof.
  revert s. induction t as [|c t IH]; intros [|c' s]; simpl; try done; try lia.
  destruct (ascii_dec c' c); [|done]. intros H%IH. lia.
Qed.

(** X1.  When a matching record is found and the merge returns, the
    exercises of the matched record are its old exercises followed by what
    iterating the incoming [exercises] yields, in order: the elements of a
    list, but also the characters of a string or the keys of an object. *)
Theorem X1_exercises_concatenated py_str today wd log ws i w log' :
  getitem log "workouts" = Ok (VList ws) →
  find_existing today ws = Ok (Some (i, w)) →
  truthy w = true →
  merge py_str today wd log = Ok log' →
  ∃ ws' w' old inc items,
    getitem log' "workouts" = Ok (VList ws') ∧ ws' !! i = Some w' ∧
    field "exercises" w = Some (VList old) ∧
    field "exercises" wd = Some inc ∧ iter inc = Ok items ∧
    field "exercises" w' = Some (VList (old ++ items)).
Proof.
  intros Hget Hfind Htrue Hmerge.
  pose proof (find_existing_lookup _ _ _ _ Hfind) as Hi.
  destruct (merge_matched_inv _ _ _ _ _ _ _ _ Hget Hfind Htrue Hmerge)
    as (dl & dw & dwd & old & inc & new & -> & -> & -> & Hold & Hinc & Hnew & ->).
  eexists _, _, old, inc, new. split; [apply workouts_after_update|].
  split; [apply list_lookup_insert_eq; by eapply lookup_lt_Some|].
  split_and!; [done..|]. apply merged_lookup_exercises.
Qed.

Lemma X1_exercises_concatenated_witness :
  ∃ ws' w' old inc items,
    getitem
      (VDict [("workouts",
               VList [other_day;
                      VDict [("date", VStr "2025-11-01T00:00:00");
                             ("exercises", VList [squat; VStr "j"; VStr "o"]);
                             ("workout_type", VStr "strength");
                             ("duration", VStr "40 min");
                             ("notes", VStr "tired")]])])
      "workouts" = Ok (VList ws') ∧
    ws' !! 1 = Some w' ∧
    field "exercises" stored_day = Some (VList old) ∧
    field "exercises" (VDict [("exercises", VStr "jo")]) = Some inc ∧
    iter inc = Ok items ∧
    field "exercises" w' = Some (VList (old ++ items)).
Proof.
  apply (X1_exercises_concatenated str_of_atom "2025-11-01"
           (VDict [("exercises", VStr "jo")]) sample_log
           [other_day; stored_day] 1 stored_day);
    reflexivity.
Defined.

(** X2.  When the scan finds no record of the day, any incoming object,
    whatever its fields, becomes the last record of the log with its date
    set to the day; the records before it are kept as they are, in their
    order. *)
Theorem X2_new_day_appended_last py_str today dwd dl ws :
  dict_lookup "workouts" dl = Some (VList ws) →
  find_existing today ws = Ok None →
  merge py_str today (VDict dwd) (VDict dl) =
    Ok (VDict (dict_set "workouts"
                 (VList (ws ++ [VDict (dict_set "date" (VStr today) dwd)])) dl)).
Proof.
  intros Hws Hfind. rewrite (merge_unfold _ _ _ _ _ _ Hws Hfind).
  by apply create_workout_dict.
Qed.

Lemma X2_new_day_appended_last_witness :
  merge str_of_atom "2025-11-03" (VDict [("workout_type", VStr "cardio")])
    (VDict [("workouts", VList [other_day; stored_day])])
  = Ok (VDict (dict_set "workouts"
                 (VList ([other_day; stored_day]
                           ++ [VDict (dict_set "date" (VStr "2025-11-03")
                                        [("workout_type", VStr "cardio")])]))
                 [("workouts", VList [other_day; stored_day])])).
Proof.
  apply (X2_new_day_appended_last str_of_atom "2025-11-03"
           [("workout_type", VStr "cardio")]
           [("workouts", VList [other_day; stored_day])]
           [other_day; stored_day]);
    reflexivity.
Defined.

(** X3.  A merge that returns changes nothing of the log but its list of
    workouts: every other top-level field of the log object is kept. *)
Theorem X3_log_fields_kept py_str today wd log log' k :
  merge py_str today wd log = Ok log' →
  k ≠ "workouts" →
  field k log' = field k log.
Proof.
  intros Hmerge Hk.
  destruct (merge_Ok_inv _ _ _ _ _ Hmerge)
    as (dl & ws & found & -> & Hws & Hfind &
        [(i & w & w' & -> & _ & _ & ->) | (_ & dwd & -> & ->)]);
    simpl; by rewrite dict_lookup_set_ne.
Qed.

Lemma X3_log_fields_kept_witness :
  field "owner"
    (VDict [("owner", VStr "dante");
            ("workouts", VList [VDict [("exercises", VList [jog]);
                                       ("date", VStr "2025-11-03")]])])
  = field "owner" (VDict [("owner", VStr "dante"); ("workouts", VList [])]).
Proof.
  apply (X3_log_fields_kept str_of_atom "2025-11-03"
           (VDict [("exercises", VList [jog])])
           (VDict [("owner", VStr "dante"); ("workouts", VList [])]));
    [reflexivity | done].
Defined.

(** X4.  The date the extraction put into the record never reaches the log:
    two incoming records that differ only in the value of their [date] give
    the same run. *)
Theorem X4_incoming_date_ignored py_str now dwd v path dov fs :
  append_to_master_log py_str now (VDict (dict_set "date" v dwd)) path dov fs
  = append_to_master_log py_str now (VDict dwd) path dov fs.
Proof.
  unfold append_to_master_log, mbind, io_bind, lift. simpl.
  by rewrite dict_set_overwrite.
Qed.

(** X5.  A record without exercises blocks its day.  On a day that has no
    record yet the run stores an incoming object that has no [exercises];
    from then on every run for that day, whatever it brings, raises
    [KeyError] and leaves the store as it is. *)
Theorem X5_day_without_exercises_blocked py_str now dwd path d fs dl ws :
  d ≠ "" →
  load path fs = (Ok (VDict dl), fs) →
  dict_lookup "workouts" dl = Some (VList ws) →
  Forall dated ws →
  find_existing d ws = Ok None →
  dict_lookup "exercises" dwd = None →
  ∃ fs1,
    append_to_master_log py_str now (VDict dwd) path (Some d) fs = (Ok (), fs1) ∧
    ∀ now' dwd',
      append_to_master_log py_str now' (VDict dwd') path (Some d) fs1
      = (Raise KeyError, fs1).
Proof.
  intros Hd Hload Hws Hdated Hfind Hnone.
  rewrite (find_existing_dated _ _ Hdated) in Hfind. injection Hfind as Hfind.
  pose proof (merge_step_new py_str d (dict_set "date" (VStr d) dwd) dl ws
                Hws Hdated Hfind) as Hmerge.
  rewrite dict_set_set in Hmerge.
  destruct (new_record_on_date d dwd) as (Hon & _ & Hdated').
  eexists. split.
  - apply append_to_master_log_Ok. rewrite resolve_today_override by done.
    by eexists _, _, _.
  - intros now' dwd'. eapply append_to_master_log_merge_Raise.
    + apply load_after_save.
    + rewrite resolve_today_override by done.
      assert (Forall dated (ws ++ [VDict (dict_set "date" (VStr d) dwd)]))
        as Hdated1 by (apply Forall_app; split; [done | by apply Forall_singleton]).
      rewrite (merge_unfold _ _ _ _ _ _ (dict_lookup_set_eq _ _ _)
                 (find_existing_dated _ _ Hdated1)).
      rewrite (list_find_snoc _ _ _ Hfind Hon).
      rewrite (dated_truthy _ Hdated').
      rewrite merge_existing_dict.
      by rewrite dict_lookup_set_ne, Hnone.
Qed.

Lemma X5_day_without_exercises_blocked_witness :
  ∃ fs1,
    append_to_master_log str_of_atom noon (VDict [("workout_type", VStr "cardio")])
      log_path (Some "2025-11-03") sample_fs = (Ok (), fs1) ∧
    ∀ now' dwd',
      append_to_master_log str_of_atom now' (VDict dwd') log_path
        (Some "2025-11-03") fs1
      = (Raise KeyError, fs1).
Proof.
  apply (X5_day_without_exercises_blocked str_of_atom noon
           [("workout_type", VStr "cardio")] log_path "2025-11-03" sample_fs
           [("workouts", VList [other_day; stored_day])]
           [other_day; stored_day]);
    try reflexivity; [done|].
  repeat apply Forall_cons_2; [..|apply Forall_nil_2]; by eexists _, _.
Defined.

(** X6.  The merge never takes over the incoming workout type: after a
    merge into a matched record the type of the record is what it was or
    "mixed", and a record that is "mixed" stays "mixed". *)
Theorem X6_type_kept_or_mixed py_str today wd log ws i w log' :
  getitem log "workouts" = Ok (VList ws) →
  find_existing today ws = Ok (Some (i, w)) →
  truthy w = true →
  merge py_str today wd log = Ok log' →
  ∃ ws' w',
    getitem log' "workouts" = Ok (VList ws') ∧ ws' !! i = Some w' ∧
    (field "workout_type" w' = field "workout_type" w
     ∨ field "workout_type" w' = Some (VStr "mixed")) ∧
    (field "workout_type" w = Some (VStr "mixed") →
       field "workout_type" w' = Some (VStr "mixed")).
Proof.
  intros Hget Hfind Htrue Hmerge.
  pose proof (find_existing_lookup _ _ _ _ Hfind) as Hi.
  destruct (merge_matched_inv _ _ _ _ _ _ _ _ Hget Hfind Htrue Hmerge)
    as (dl & dw & dwd & old & inc & new & -> & -> & -> & Hold & Hinc & Hnew & ->).
  eexists _, _. split; [apply workouts_after_update|].
  split; [apply list_lookup_insert_eq; by eapply lookup_lt_Some|].
  cbn [field]. rewrite merged_lookup_type.
  destruct (_ && _); split; auto.
Qed.

Lemma X6_type_kept_or_mixed_witness :
  ∃ ws' w',
    getitem
      (VDict [("workouts",
               VList [VDict [("date", VStr "2025-11-02");
                             ("exercises", VList [jog]);
                             ("workout_type", VStr "mixed");
                             ("notes", VStr "felt great")];
                      stored_day])])
      "workouts" = Ok (VList ws') ∧
    ws' !! 0 = Some w' ∧
    (field "workout_type" w' = field "workout_type" other_day
     ∨ field "workout_type" w' = Some (VStr "mixed")) ∧
    (field "workout_type" other_day = Some (VStr "mixed") →
       field "workout_type" w' = Some (VStr "mixed")).
Proof.
  apply (X6_type_kept_or_mixed str_of_atom "2025-11-02" incoming_cardio
           sample_log [other_day; stored_day] 0 other_day);
    reflexivity.
Defined.

(** X7.  Notes only grow: when the matched record has notes, a non-empty
    string, the notes after the merge are a string that starts with them,
    whatever the incoming record holds. *)
Theorem X7_notes_only_grow py_str today wd log ws i w log' e :
  getitem log "workouts" = Ok (VList ws) →
  find_existing today ws = Ok (Some (i, w)) →
  truthy w = true →
  merge py_str today wd log = Ok log' →
  field "notes" w = Some (VStr e) → e ≠ "" →
  ∃ ws' w' r,
    getitem log' "workouts" = Ok (VList ws') ∧ ws' !! i = Some w' ∧
    field "notes" w' = Some (VStr r) ∧ String.prefix e r = true.
Proof.
  intros Hget Hfind Htrue Hmerge Hnotes He.
  pose proof (find_existing_lookup _ _ _ _ Hfind) as Hi.
  destruct (merge_matched_inv _ _ _ _ _ _ _ _ Hget Hfind Htrue Hmerge)
    as (dl & dw & dwd & old & inc & new & -> & -> & -> & Hold & Hinc & Hnew & ->).
  cbn [field] in Hnotes.
  assert (∃ r,
            dict_lookup "notes"
              (reconcile_notes py_str dwd
                 (reconcile_type dwd
                    (dict_set "exercises" (VList (old ++ new)) dw)))
            = Some (VStr r) ∧ String.prefix e r = true) as (r & Hr & Hpre).
  { rewrite merged_lookup_notes, Hnotes. cbn zeta. simpl.
    rewrite bool_decide_eq_false_2 by done. simpl.
    destruct (truthy (default VNone (dict_lookup "notes" dwd)));
      eexists; (split; [reflexivity|]);
      [apply prefix_app | apply prefix_refl]. }
  eexists _, _, r. split; [apply workouts_after_update|].
  split; [apply list_lookup_insert_eq; by eapply lookup_lt_Some|]. done.
Qed.

Lemma X7_notes_only_grow_witness :
  ∃ ws' w' r,
    getitem
      (VDict [("workouts",
               VList [other_day;
                      VDict [("date", VStr "2025-11-01T00:00:00");
                             ("exercises", VList [squat; jog]);
                             ("workout_type", VStr "mixed");
                             ("duration", VStr "40 min");
                             ("notes", VStr "tired; felt great")]])])
      "workouts" = Ok (VList ws') ∧
    ws' !! 1 = Some w' ∧
    field "notes" w' = Some (VStr r) ∧ String.prefix "tired" r = true.
Proof.
  apply (X7_notes_only_grow str_of_atom "2025-11-01" incoming_cardio
           sample_log [other_day; stored_day] 1 stored_day);
    try reflexivity. done.
Defined.

(** X8.  A target that is longer than every stored date matches nothing.  A
    date override with a time part, run against a log of plain dates, thus
    opens a new record, also when the log has a record of that calendar
    day. *)
Theorem X8_longer_target_opens_record py_str today dwd dl ws :
  dict_lookup "workouts" dl = Some (VList ws) →
  Forall (λ w, dated w ∧
               (String.length (date_of w) < String.length today)%nat) ws →
  merge py_str today (VDict dwd) (VDict dl) =
    Ok (VDict (dict_set "workouts"
                 (VList (ws ++ [VDict (dict_set "date" (VStr today) dwd)])) dl)).
Proof.
  intros Hws Hall. apply merge_step_new; [done| |].
  - eapply Forall_impl; [done|]. by intros w [? _].
  - apply list_find_None. eapply Forall_impl; [done|].
    intros w [_ Hlt] Hon. apply prefix_length in Hon. lia.
Qed.

Lemma X8_longer_target_opens_record_witness :
  merge str_of_atom "2025-11-02T18:30:00" (VDict [("exercises", VList [jog])])
    (VDict [("workouts", VList [other_day])])
  = Ok (VDict (dict_set "workouts"
                 (VList ([other_day]
                           ++ [VDict (dict_set "date" (VStr "2025-11-02T18:30:00")
                                        [("exercises", VList [jog])])]))
                 [("workouts", VList [other_day])])).
Proof.
  apply (X8_longer_target_opens_record str_of_atom "2025-11-02T18:30:00"
           [("exercises", VList [jog])] [("workouts", VList [other_day])]
           [other_day]).
  - reflexivity.
  - apply Forall_cons_2; [|apply Forall_nil_2].
    split; [by eexists _, _ | vm_compute; lia].
Defined.

(** ** More on the process *)



Lemma find_existing_on_date today ws : ∀ i w,
  find_existing today ws = Ok (Some (i, w)) → on_date today w.
Proof.
  induction ws as [|x ws IH]; intros i w H; [done|].
  cbn [find_existing] in H.
  apply bind_Ok in H as (workout_date & Hdate & H).
  apply bind_Ok in H as ([] & Hstart & H).
  - injection H as <- <-.
    destruct x as [| | | | | |d]; try done. simpl in Hdate.
    injection Hdate as <-. unfold on_date, date_of.
    destruct (dict_lookup "date" d) as [[| | | |s| |]|]; try done;
      injection Hstart as Hs; exact Hs.
  - apply bind_Ok in H as ([[j w']|] & Hrest & H); [|done].
    injection H as <- <-. by eapply IH.
Qed.

(** A merge that returns leaves a record of the day in the log. *)
Lemma merge_leaves_record_of_day py_str today wd log log' :
  merge py_str today wd log = Ok log' →
  ∃ ws' i r,
    getitem log' "workouts" = Ok (VList ws') ∧ ws' !! i = Some r ∧
    on_date today r.
Proof.
  intros Hmerge.
  destruct (merge_Ok_inv _ _ _ _ _ Hmerge)
    as (dl & ws & found & -> & Hws & Hfind &
        [(i & w & w' & -> & _ & Hw' & ->) | (_ & dwd & -> & ->)]).
  - pose proof (find_existing_lookup _ _ _ _ Hfind) as Hi.
    pose proof (find_existing_on_date _ _ _ _ Hfind) as Hon.
    apply merge_existing_Ok in Hw'
      as (dw & dwd & old & inc & new & -> & -> & Hold & Hinc & Hnew & ->).
    eexists _, i, _. split; [apply workouts_after_update|].
    split; [apply list_lookup_insert_eq; by eapply lookup_lt_Some|].
    eapply on_date_same_date; [|done].
    unfold date_of. by rewrite merged_lookup_other.
  - eexists _, (length ws), _. split; [apply workouts_after_update|].
    split; [by rewrite lookup_app_r, Nat.sub_diag by lia|].
    apply new_record_on_date.
Qed.



(** X10.  When the log path is the path of the run's record file and the
    extracted value has no [workouts] of its own, the run fails with status
    1 after it has replaced the log by the bare record: what the log held
    is lost. *)
Theorem X10_log_overwritten_by_record py_str w prog audio_file rest fs
    transcription workout_data :
  let argv := prog :: audio_file :: rest in
  let path := default "workout_master_log.json" (argv !! 4) in
  transcribe_audio w audio_file (default "base" (argv !! 2)) = Ok transcription →
  extract_workout_data w transcription (default "llama3.2" (argv !! 3))
    = Ok workout_data →
  path = rsplit_head audio_file +:+ "_workout.json" →
  field "workouts" workout_data = None →
  (main py_str w argv fs).1 = 1%Z ∧
  (main py_str w argv fs).2 !! path = Some (Json workout_data).
Proof.
  intros argv path. subst argv path.
  cbn [lookup list_lookup]. intros Ht Hx Hpath Hnone.
  unfold main. cbn [lookup list_lookup].
  unfold pipeline, mbind, io_bind, lift, write_text, save.
  rewrite Ht, Hx, <-Hpath.
  destruct (append_to_master_log _ _ _ _ _ _) as [r fs'] eqn:Hrun.
  assert (∃ e, r = Raise e) as [e ->].
  { destruct workout_data as [| | | | | |dwd];
      try (unfold append_to_master_log, mbind, io_bind, lift in Hrun;
           simpl in Hrun; injection Hrun as <- _; by eexists).
    cbn [field] in Hnone.
    erewrite append_to_master_log_merge_Raise in Hrun.
    - injection Hrun as <- _. by eexists.
    - apply load_after_save.
    - unfold merge. simpl. by rewrite Hnone. }
  apply append_to_master_log_Raise in Hrun as ->. simpl.
  split; [done|]. by rewrite lookup_insert_eq.
Qed.

Lemma X10_log_overwritten_by_record_witness :
  (main str_of_atom (sample_world incoming_cardio)
     ["whisper_stt.py"; "set.mp3"; "base"; "llama3.2"; "set_workout.json"]
     {[ "set_workout.json" := Json sample_log ]}).1 = 1%Z ∧
  (main str_of_atom (sample_world incoming_cardio)
     ["whisper_stt.py"; "set.mp3"; "base"; "llama3.2"; "set_workout.json"]
     {[ "set_workout.json" := Json sample_log ]}).2 !! "set_workout.json"
  = Some (Json incoming_cardio).
Proof.
  apply (X10_log_overwritten_by_record str_of_atom (sample_world incoming_cardio)
           "whisper_stt.py" "set.mp3" ["base"; "llama3.2"; "set_workout.json"]
           {[ "set_workout.json" := Json sample_log ]}
           "three sets of squats" incoming_cardio);
    reflexivity.
Defined.

(** X12.  A run that ends with status 0 has written a log, and that log has
    a record of the day of the run. *)
Theorem X12_success_leaves_record py_str w argv fs fs' :
  main py_str w argv fs = (0%Z, fs') →
  ∃ log' ws' i r,
    fs' !! default "workout_master_log.json" (argv !! 4) = Some (Json log') ∧
    getitem log' "workouts" = Ok (VList ws') ∧ ws' !! i = Some r ∧
    on_date (resolve_today (clock w) (argv !! 5)) r.
Proof.
  unfold main. destruct argv as [|prog [|audio_file rest]]; [done..|].
  cbn [lookup list_lookup default from_option id].
  unfold pipeline, mbind, io_bind, lift, write_text, save.
  destruct (transcribe_audio w _ _) as [transcription|]; [|done].
  destruct (extract_workout_data w _ _) as [workout_data|]; [|done].
  destruct (append_to_master_log _ _ _ _ _ _) as [[[]|e] fs1] eqn:Hrun; [|done].
  intros [= <-].
  apply append_to_master_log_Ok in Hrun as (wd' & log & log' & _ & _ & Hmerge & ->).
  destruct (merge_leaves_record_of_day _ _ _ _ _ Hmerge)
    as (ws' & i & r & ? & ? & ?).
  exists log', ws', i, r. split_and!; [|done..]. apply lookup_insert_eq.
Qed.

Lemma X12_success_leaves_record_witness :
  ∃ log' ws' i r,
    (main str_of_atom (sample_world incoming_cardio)
       ["whisper_stt.py"; "set.mp3"] sample_fs).2
      !! default "workout_master_log.json"
           (["whisper_stt.py"; "set.mp3"] !! 4) = Some (Json log') ∧
    getitem log' "workouts" = Ok (VList ws') ∧ ws' !! i = Some r ∧
    on_date (resolve_today (clock (sample_world incoming_cardio))
               (["whisper_stt.py"; "set.mp3"] !! 5)) r.
Proof.
  apply (X12_success_leaves_record str_of_atom (sample_world incoming_cardio)
           ["whisper_stt.py"; "set.mp3"] sample_fs).
  reflexivity.
Defined.

(** ** Runs in sequence, exercise by exercise *)

Lemma merge_step_found_exercises py_str today wd dl ws i r :
  dict_lookup "workouts" dl = Some (VList ws) →
  Forall wf_record ws →
  list_find (on_date today) ws = Some (i, r) →
  has_exercise_list wd →
  ∃ r',
    merge py_str today wd (VDict dl) =
      Ok (VDict (dict_set "workouts" (VList (<[i := r']> ws)) dl)) ∧
    wf_record r' ∧ date_of r' = date_of r ∧
    exercises_of r' = exercises_of r ++ exercises_of wd.
Proof.
  intros Hws Hwf Hfind (dwd & new & -> & Hnew).
  assert (Forall dated ws) as Hdated
    by (eapply Forall_impl; [done | apply wf_record_dated]).
  pose proof Hfind as (Hi & _ & _)%list_find_Some.
  pose proof (Forall_lookup_1 _ _ _ _ Hwf Hi) as
    [(dr & s & -> & Hs) (dr' & old & [= <-] & Hold)].
  rewrite (merge_unfold _ _ _ _ _ _ Hws (find_existing_dated _ _ Hdated)), Hfind.
  rewrite dated_truthy by (by exists dr, s).
  rewrite merge_existing_dict, Hold, Hnew. simpl.
  eexists. split; [done|]. split_and!.
  - split.
    + eexists _, s. split; [done|]. by rewrite merged_lookup_other.
    + eexists _, _. split; [done|]. apply merged_lookup_exercises.
  - unfold date_of. by rewrite merged_lookup_other.
  - unfold exercises_of. by rewrite merged_lookup_exercises, Hold, Hnew.
Qed.

Lemma append_found_exercises py_str now wd path d fs i r :
  d ≠ "" →
  day_state path d fs i r →
  has_exercise_list wd →
  ∃ fs' r',
    append_to_master_log py_str now wd path (Some d) fs = (Ok (), fs') ∧
    day_state path d fs' i r' ∧
    exercises_of r' = exercises_of r ++ exercises_of wd.
Proof.
  intros Hd (dl & ws & Hload & Hws & Hwf & Hfind & Hone) (dwd & new & -> & Hnew).
  assert (has_exercise_list (VDict (dict_set "date" (VStr d) dwd))) as Hwd'
    by (eexists _, new; split; [done|]; by rewrite dict_lookup_set_ne).
  destruct (merge_step_found_exercises py_str d _ dl ws i r Hws Hwf Hfind Hwd')
    as (r' & Hmerge & Hr' & Hdate & Hex).
  pose proof Hfind as (Hi & Hon & _)%list_find_Some.
  assert (on_date d r') as Hon' by by eapply on_date_same_date.
  eexists _, r'. split_and!.
  - apply append_to_master_log_Ok. rewrite resolve_today_override by done.
    by eexists _, _, _.
  - eexists _, _. split_and!.
    + apply load_after_save.
    + apply dict_lookup_set_eq.
    + by apply Forall_insert.
    + by eapply list_find_replace.
    + by rewrite (filter_replace_length _ _ _ r).
  - rewrite Hex. f_equal. unfold exercises_of.
    by rewrite dict_lookup_set_ne.
Qed.

(** X13.  Runs for one day accumulate in the order of the runs: when the
    log has the record of the day, the exercises of that record after the
    runs are its exercises before them, followed by the exercise lists of
    the first run, of the second run, and so on. *)
Theorem X13_exercises_in_run_order py_str path d runs : ∀ fs i r,
  d ≠ "" →
  day_state path d fs i r →
  Forall (λ run, has_exercise_list run.2) runs →
  ∃ fs' r',
    run_all py_str path d runs fs = (Ok (), fs') ∧
    day_state path d fs' i r' ∧
    exercises_of r' = exercises_of r ++ concat (exercises_of <$> runs.*2).
Proof.
  induction runs as [|[now wd] runs IH]; intros fs i r Hd Hst Hruns.
  - exists fs, r. split_and!; [done..|]. simpl. by rewrite app_nil_r.
  - apply Forall_cons in Hruns as [Hwd Hruns].
    destruct (append_found_exercises py_str now wd path d fs i r Hd Hst Hwd)
      as (fs1 & r1 & Hrun & Hst1 & Hex1).
    destruct (IH fs1 i r1 Hd Hst1 Hruns) as (fs' & r' & Hrest & Hst' & Hex).
    exists fs', r'. split_and!.
    + cbn [run_all]. unfold mbind, io_bind. by rewrite Hrun.
    + done.
    + rewrite Hex, Hex1. csimpl. by rewrite (assoc_L (++)).
Qed.

Lemma X13_exercises_in_run_order_witness :
  ∃ fs' r',
    run_all str_of_atom log_path "2025-11-01"
      [(noon, incoming_cardio); (noon, VDict [("exercises", VList [squat])])]
      sample_fs = (Ok (), fs') ∧
    day_state log_path "2025-11-01" fs' 1 r' ∧
    exercises_of r'
    = exercises_of stored_day
        ++ concat (exercises_of
                     <$> [(noon, incoming_cardio);
                          (noon, VDict [("exercises", VList [squat])])].*2).
Proof.
  apply (X13_exercises_in_run_order str_of_atom log_path "2025-11-01"
           [(noon, incoming_cardio); (noon, VDict [("exercises", VList [squat])])]
           sample_fs 1 stored_day).
  - done.
  - exists [("workouts", VList [other_day; stored_day])], [other_day; stored_day].
    split_and!; try reflexivity.
    repeat apply Forall_cons_2; [..|apply Forall_nil_2];
      (split; by eexists _, _).
  - repeat apply Forall_cons_2; [..|apply Forall_nil_2]; by eexists _, _.
Defined.

(** ** The names of the run's files *)

Lemma no_dot_before_last_dot s :
  (∀ n, String.get n s ≠ Some "."%char) → before_last_dot s = None.
Proof.
  induction s as [|c s IH]; intros Hdot; [done|]. simpl.
  rewrite IH by (intros n; apply (Hdot (S n))).
  rewrite bool_decide_eq_false_2; [done|].
  intros ->. by apply (Hdot 0).
Qed.

Lemma before_last_dot_app base ext :
  before_last_dot ext = None →
  before_last_dot (base +:+ "." +:+ ext) = Some base.
Proof.
  intros Hext. induction base as [|c base IH].
  - change (before_last_dot (String "." ext) = Some "").
    simpl. by rewrite Hext.
  - change (before_last_dot (String c (base +:+ "." +:+ ext))
            = Some (String c base)).
    simpl. by rewrite IH.
Qed.

(** X14.  The base name of the run's files is the audio path without its
    extension: for an extension without a dot, [base.ext] gives [base]
    (dots in [base] are kept), and a path without any dot is its own base
    name. *)
Theorem X14_base_name_drops_extension base ext :
  (∀ n, String.get n ext ≠ Some "."%char) →
  rsplit_head (base +:+ "." +:+ ext) = base ∧ rsplit_head ext = ext.
Proof.
  intros Hdot%no_dot_before_last_dot. unfold rsplit_head.
  by rewrite before_last_dot_app, Hdot.
Qed.

Lemma X14_base_name_drops_extension_witness :
  rsplit_head ("tapes/leg.day" +:+ "." +:+ "mp3") = "tapes/leg.day"
  ∧ rsplit_head "mp3" = "mp3".
Proof.
  apply (X14_base_name_drops_extension "tapes/leg.day" "mp3").
  intros [|[|[|n]]]; simpl; congruence.
Defined.

(** ** The transcript *)

Lemma string_app_assoc a b c : (a +:+ b) +:+ c = a +:+ b +:+ c.
Proof.
  induction a as [|x a IH]; [done|].
  change (String x ((a +:+ b) +:+ c) = String x (a +:+ b +:+ c)).
  by rewrite IH.
Qed.

(** X16.  The transcript is the texts of the segments in their order, with
    one space between neighbours: cutting the list of segments in two
    non-empty parts cuts the transcript at a space. *)
Theorem X16_transcript_joins_segments xs ys :
  xs ≠ [] → ys ≠ [] →
  join_segments (xs ++ ys)
  = join_segments xs +:+ " " +:+ join_segments ys.
Proof.
  intros Hxs Hys. induction xs as [|x xs IH]; [done|].
  destruct xs as [|x' xs].
  - destruct ys; [done|]. reflexivity.
  - change (x +:+ " " +:+ join_segments ((x' :: xs) ++ ys)
            = (x +:+ " " +:+ join_segments (x' :: xs))
                +:+ " " +:+ join_segments ys).
    rewrite IH by done. by rewrite !string_app_assoc.
Qed.

Lemma X16_transcript_joins_segments_witness :
  join_segments ([" Three sets"; " of squats."] ++ [" Then a jog."])
  = join_segments [" Three sets"; " of squats."] +:+ " "
      +:+ join_segments [" Then a jog."].
Proof.
  by apply (X16_transcript_joins_segments [" Three sets"; " of squats."]
              [" Then a jog."]).
Defined.

Example characters_not_bytes :
  iter (VStr "aé€") = Ok [VStr "a"; VStr "é"; VStr "€"] ∧
  extend (VList []) (Ok (VStr "é")) = Ok (VList [VStr "é"]) ∧
  iter (VStr "") = Ok [].
Proof. by split_and!. Qed.

Example torn_write_changes_the_log :
  append_to_master_log_in str_of_atom
    {| print_branch := Ok (); write_log := Torn ExternalError (Other "{");
       print_updated := Ok (); print_total := Ok () |}
    noon incoming_cardio log_path (Some "2025-11-01") sample_fs
  = (Raise ExternalError, <[log_path := Other "{"]> sample_fs).
Proof. reflexivity. Qed.
